(** * jsnoop.handlers: handler resolution, artifact entities, persistence

    A shallow embedding of [src/jsnoop/handlers/__init__.py].

    Conventions of the embedding:
    - Python [str] values are [string]s of ASCII characters; POSIX path
      conventions are assumed ([os.path] is [posixpath], [sep] is "/").
    - Module-level globals ([__IGNORED_EXTENSIONS], [__LOADED]) and the file
      system form an explicit state that every function threads; an exception
      leaves the state as it was when it was raised (Python does not roll
      back).
    - Library functions the module imports ([os.path], [os.makedirs],
      [tempfile.mkdtemp], [shutil.rmtree], [str.replace], ...) are modelled
      after their documented behaviour; paths are plain strings, "." and ".."
      segments and symbolic links are not interpreted. *)

From stdpp Require Import gmap strings list fin_maps.
From Stdlib Require Import Ascii String.

Local Open Scope string_scope.

(** ** Python strings *)

Module PyStr.

Definition sep : ascii := "/"%char.
Definition extsep : ascii := "."%char.

Definition eqc (a b : ascii) : bool := Ascii.eqb a b.

(** [c.lower()] on an ASCII character. *)
Definition lower_char (c : ascii) : ascii :=
  let n := nat_of_ascii c in
  if (65 <=? n)%nat && (n <=? 90)%nat then ascii_of_nat (n + 32) else c.

(** [s.lower()] *)
Fixpoint lower (s : string) : string :=
  match s with
  | EmptyString => EmptyString
  | String c t => String (lower_char c) (lower t)
  end.

(** [s.rfind(c) + 1]: one past the index of the last occurrence of [c],
    [0] when [c] does not occur ([rfind] answers [-1]). *)
Fixpoint rfind1 (c : ascii) (s : string) : nat :=
  match s with
  | EmptyString => 0
  | String a t =>
      match rfind1 c t with
      | S k => S (S k)
      | O => if eqc a c then 1 else 0
      end
  end.

(** [s[:i]] and [s[i:]] *)
Fixpoint take (i : nat) (s : string) : string :=
  match i, s with
  | S k, String c t => String c (take k t)
  | _, _ => EmptyString
  end.

Fixpoint drop (i : nat) (s : string) : string :=
  match i, s with
  | S k, String _ t => drop k t
  | _, _ => s
  end.

(** [s.lstrip(c)] for a one-character set. *)
Fixpoint lstrip (c : ascii) (s : string) : string :=
  match s with
  | String a t => if eqc a c then lstrip c t else s
  | EmptyString => EmptyString
  end.

(** [s.rstrip(c)] for a one-character set. *)
Fixpoint rstrip (c : ascii) (s : string) : string :=
  match s with
  | EmptyString => EmptyString
  | String a t =>
      match rstrip c t with
      | EmptyString => if eqc a c then EmptyString else String a EmptyString
      | r => String a r
      end
  end.

(** [s == c * len(s)] *)
Fixpoint all_char (c : ascii) (s : string) : bool :=
  match s with
  | EmptyString => true
  | String a t => eqc a c && all_char c t
  end.

Definition is_empty (s : string) : bool :=
  match s with EmptyString => true | _ => false end.

(** [s.startswith(p)] *)
Definition startswith (p s : string) : bool := String.prefix p s.

(** [s.endswith(c)] for one character. *)
Fixpoint endswith_char (c : ascii) (s : string) : bool :=
  match s with
  | EmptyString => false
  | String a EmptyString => eqc a c
  | String _ t => endswith_char c t
  end.

(** The scan of [s.replace(old, '')] for a non-empty [old]: matches are
    found left to right and do not overlap; [skip] counts the characters
    of the current match that remain to be dropped. *)
Fixpoint remove_scan (old : string) (skip : nat) (s : string) : string :=
  match s with
  | EmptyString => EmptyString
  | String c t =>
      match skip with
      | S k => remove_scan old k t
      | O =>
          if startswith old s
          then remove_scan old (String.length old - 1) t
          else String c (remove_scan old 0 t)
      end
  end.

(** [s.replace(old, '')]; with an empty [old] nothing is removed. *)
Definition replace_by_empty (old s : string) : string :=
  match old with
  | EmptyString => s
  | _ => remove_scan old 0 s
  end.

(** [sub in s] *)
Fixpoint occurs (sub s : string) : bool :=
  startswith sub s ||
  match s with
  | EmptyString => false
  | String _ t => occurs sub t
  end.

Definition is_hexdigit (c : ascii) : bool :=
  existsb (eqc c) (list_ascii_of_string "0123456789abcdef").

(** A hex digest: a non-empty string of hexadecimal digits. *)
Definition is_hex (s : string) : bool :=
  negb (is_empty s) && forallb is_hexdigit (list_ascii_of_string s).

End PyStr.

(** ** [os.path] (posixpath) *)

Module PosixPath.
Import PyStr.

(** [basename(p)]: [i = p.rfind('/') + 1; return p[i:]] *)
Definition basename (p : string) : string := drop (rfind1 sep p) p.

(** [dirname(p)]: [head = p[:i]]; trailing separators are stripped unless
    [head] consists of separators only. *)
Definition dirname (p : string) : string :=
  let head := take (rfind1 sep p) p in
  if negb (is_empty head) && negb (all_char sep head)
  then rstrip sep head
  else head.

(** The extension of [splitext(p)], i.e. [splitext(p)[-1]]: the suffix from
    the last dot, provided the dot lies in the last path component and is
    preceded there by a character that is not a dot. *)
Definition splitext_ext (p : string) : string :=
  let sepIndex1 := rfind1 sep p in
  let dotIndex1 := rfind1 extsep p in
  if (sepIndex1 <? dotIndex1)%nat then
    let leading := take (dotIndex1 - 1 - sepIndex1) (drop sepIndex1 p) in
    if all_char extsep leading then EmptyString else drop (dotIndex1 - 1) p
  else EmptyString.

(** [join(a, p)] for two components. *)
Definition join (a p : string) : string :=
  if startswith "/" p then p
  else if is_empty a || endswith_char sep a then a ++ p
  else a ++ "/" ++ p.

End PosixPath.

(** ** Exceptions and the state-and-exception monad *)

Inductive PyExc : Type :=
  | ValueError
  | AssertionError
  | AttributeError
  | UnboundLocalError
  | ImportError
  | FileExistsError
  | FileNotFoundError
  | IsADirectoryError
  | NotADirectoryError
  | IOError
  | MemoryError
  | RecursionError.

(** [isinstance(e, ValueError)], the test of [except ValueError]. *)
Definition is_ValueError (e : PyExc) : bool :=
  match e with ValueError => true | _ => false end.

Inductive Outcome (A : Type) : Type :=
  | Return (a : A)
  | Raise (e : PyExc).
Arguments Return {A} a.
Arguments Raise {A} e.

(** A computation over a state [S]: it ends with a value or an exception,
    and the state reached is kept in both cases. *)
Definition M (S A : Type) : Type := S -> Outcome A * S.

Definition ret {S A} (a : A) : M S A := fun s => (Return a, s).
Definition raise {S A} (e : PyExc) : M S A := fun s => (Raise e, s).
Definition bind {S A B} (c : M S A) (k : A -> M S B) : M S B :=
  fun s => match c s with
           | (Return a, s') => k a s'
           | (Raise e, s') => (Raise e, s')
           end.
Definition get {S} : M S S := fun s => (Return s, s).
Definition put {S} (s : S) : M S unit := fun _ => (Return tt, s).
Definition modify {S} (f : S -> S) : M S unit := fun s => (Return tt, f s).

(** [try: c  except: h(e)] *)
Definition try_except {S A} (c : M S A) (h : PyExc -> M S A) : M S A :=
  fun s => match c s with
           | (Return a, s') => (Return a, s')
           | (Raise e, s') => h e s'
           end.

(** [assert b] *)
Definition assert {S} (b : bool) : M S unit :=
  if b then ret tt else raise AssertionError.

(** Run a computation on a component of the state. *)
Definition lift {S T A} (proj : S -> T) (upd : T -> S -> S) (c : M T A) : M S A :=
  fun s => match c (proj s) with (o, t) => (o, upd t s) end.

#[global] Instance M_ret {S} : MRet (M S) := fun A a => ret a.
#[global] Instance M_bind {S} : MBind (M S) := fun A B k c => bind c k.

(** [for x in l: body x] *)
Fixpoint for_each {S A} (l : list A) (body : A -> M S unit) : M S unit :=
  match l with
  | [] => ret tt
  | x :: t => body x ;; for_each t body
  end.

(** ** Byte sources *)

Abbreviation bytes := (list Byte.byte).

(** What a caller may pass as [fileobj]: [None], a [bytes] value, or a
    file-like object (an in-memory stream with a read position). *)
Inductive FileObj : Type :=
  | PyNone
  | PyBytes (b : bytes)
  | PyFile (content : bytes) (pos : nat).

(** [x is not None] *)
Definition is_not_None (x : FileObj) : bool :=
  match x with PyNone => false | _ => true end.

(** [bool(x)]: [None] and empty [bytes] are falsy; a stream object defines
    neither [__bool__] nor [__len__] and is always truthy. *)
Definition truthy (x : FileObj) : bool :=
  match x with
  | PyNone => false
  | PyBytes b => negb (bool_decide (b = []))
  | PyFile _ _ => true
  end.

(** [x.seek(0)] *)
Definition seek0 (x : FileObj) : Outcome FileObj :=
  match x with
  | PyFile c _ => Return (PyFile c 0)
  | _ => Raise AttributeError
  end.

(** [x.read()]: the bytes from the position to the end; the position moves
    to the end. *)
Definition read (x : FileObj) : Outcome (bytes * FileObj) :=
  match x with
  | PyFile c p => Return (List.skipn p c, PyFile c (List.length c))
  | _ => Raise AttributeError
  end.

(** ** The file system *)

(** Directories and regular files by path; [fs_tmpdir] is
    [tempfile.gettempdir()] and [fs_names] the sequence of names the random
    name generator of [tempfile] is going to produce. A path is a key as it
    is written: two strings are two entries, which is how the file system
    has it for literally named paths (no ".", ".." or empty component, no
    links); other spellings of a path are not identified with it. *)
Record FS : Type := mkFS {
  fs_dirs : gset string;
  fs_files : gmap string bytes;
  fs_tmpdir : string;
  fs_names : list string
}.

Module Os.
Import PyStr PosixPath.

Definition set_dirs (d : gset string) (fs : FS) : FS :=
  mkFS d (fs_files fs) (fs_tmpdir fs) (fs_names fs).
Definition set_files (f : gmap string bytes) (fs : FS) : FS :=
  mkFS (fs_dirs fs) f (fs_tmpdir fs) (fs_names fs).
Definition set_names (n : list string) (fs : FS) : FS :=
  mkFS (fs_dirs fs) (fs_files fs) (fs_tmpdir fs) n.

(** A directory is looked up without its trailing separators. *)
Definition norm (p : string) : string :=
  if is_empty p then p
  else if all_char sep p then "/"
  else rstrip sep p.

Definition isdir (fs : FS) (p : string) : bool :=
  bool_decide (norm p ∈ fs_dirs fs).
Definition isfile (fs : FS) (p : string) : bool :=
  bool_decide (is_Some (fs_files fs !! p)).
Definition exists_ (fs : FS) (p : string) : bool :=
  isdir fs p || isfile fs p.

(** [x] is [d] or lies below it. *)
Definition under (d x : string) : bool :=
  bool_decide (x = d)
  || startswith (if endswith_char sep d then d else d ++ "/") x.

(** [os.mkdir(p)] *)
Definition mkdir (p : string) : M FS unit := fun fs =>
  let parent := dirname (norm p) in
  if is_empty p then (Raise FileNotFoundError, fs)
  else if exists_ fs p then (Raise FileExistsError, fs)
  else if is_empty parent || isdir fs parent
  then (Return tt, set_dirs ({[norm p]} ∪ fs_dirs fs) fs)
  else if isfile fs parent then (Raise NotADirectoryError, fs)
  else (Raise FileNotFoundError, fs).

(** [os.makedirs(name)] with [exist_ok=False]: missing ancestors are
    created first (an ancestor that exists meanwhile is no error), then the
    leaf, whose existence is an error. The recursion is on the head of the
    path, which is shorter; [fuel] bounds it, and the length of the path is
    fuel enough ([OsFacts.makedirs_fuel]). *)
Fixpoint makedirs_rec (fuel : nat) (name : string) : M FS unit := fun fs =>
  let split p := (dirname p, basename p) in
  let '(head, tail) := split name in
  let '(head, tail) := if is_empty tail then split head else (head, tail) in
  if negb (is_empty head) && negb (is_empty tail) && negb (exists_ fs head)
  then
    match fuel with
    | O => (Raise RecursionError, fs)
    | S f =>
        match makedirs_rec f head fs with
        | (Raise FileExistsError, fs') | (Return _, fs') =>
            if bool_decide (tail = ".") then (Return tt, fs')
            else mkdir name fs'
        | (Raise e, fs') => (Raise e, fs')
        end
    end
  else mkdir name fs.

Definition makedirs (name : string) : M FS unit :=
  makedirs_rec (String.length name) name.

(** [tempfile.mkdtemp(prefix=prefix)]: the candidate names are tried in
    turn until a directory can be created. *)
Fixpoint mkdtemp_loop (names : list string) (prefix : string) : M FS string :=
  fun fs =>
  match names with
  | [] => (Raise FileExistsError, set_names [] fs)
  | n :: rest =>
      let file := join (fs_tmpdir fs) (prefix ++ n) in
      match mkdir file (set_names rest fs) with
      | (Return _, fs') => (Return file, fs')
      | (Raise FileExistsError, fs') => mkdtemp_loop rest prefix fs'
      | (Raise e, fs') => (Raise e, fs')
      end
  end.

Definition mkdtemp (prefix : string) : M FS string := fun fs =>
  mkdtemp_loop (fs_names fs) prefix fs.

(** [open(p, 'wb')]: creates or truncates the file. *)
Definition open_wb (p : string) : M FS unit := fun fs =>
  let parent := dirname p in
  if is_empty p then (Raise FileNotFoundError, fs)
  else if isdir fs p then (Raise IsADirectoryError, fs)
  else if is_empty parent || isdir fs parent
  then (Return tt, set_files (<[p := []]> (fs_files fs)) fs)
  else (Raise FileNotFoundError, fs).

(** [f.write(data)] on the file opened at [p]. *)
Definition write (p : string) (data : bytes) : M FS unit := fun fs =>
  (Return tt,
   set_files (<[p := (default [] (fs_files fs !! p) ++ data)%list]>
                (fs_files fs)) fs).

(** The content of the regular file at [p]. *)
Definition read_file (fs : FS) (p : string) : option bytes := fs_files fs !! p.

(** [shutil.rmtree(p)]: [p] must be a directory; it goes with everything
    below it. *)
Definition rmtree (p : string) : M FS unit := fun fs =>
  if isdir fs p then
    let d := norm p in
    (Return tt,
     set_files (filter (fun kv => under d kv.1 = false) (fs_files fs))
       (set_dirs (filter (fun x => under d x = false) (fs_dirs fs)) fs))
  else if isfile fs p then (Raise NotADirectoryError, fs)
  else (Raise FileNotFoundError, fs).

End Os.

(** ** Constants and argument records of the module *)

Definition required_checksums : list string := ["md5"; "sha1"; "sha256"; "sha512"].

(** The arguments of a handler constructor:
    [(filepath, fileobj=None, parent_path='', parent_sha512=None)]. *)
Record CtorArgs : Type := mkArgs {
  arg_filepath : string;
  arg_fileobj : FileObj;
  arg_parent_path : string;
  arg_parent_sha512 : option string
}.

(** What [hexdigest] is given: a path or the byte source. *)
Inductive FileInput : Type :=
  | InPath (p : string)
  | InObj (f : FileObj).

(** ** class AbstractFile *)

Module AbstractFile.
Import PyStr PosixPath.

(** The attributes of an instance. [__ondisk] and [checksums] are assigned
    by [persist] and [prepare_checksums]; until then they are unset
    ([None] here), and reading them raises [AttributeError]. *)
Record t : Type := mk {
  __filepath : string;
  fileobj : FileObj;
  path : string;
  name : string;
  type : string;
  parent : option string;
  __ondisk : option (option string);
  checksums : option (gmap string string)
}.

Definition set_fileobj (v : FileObj) (o : t) : t :=
  mk (__filepath o) v (path o) (name o) (type o) (parent o) (__ondisk o) (checksums o).
Definition set_ondisk (v : option string) (o : t) : t :=
  mk (__filepath o) (fileobj o) (path o) (name o) (type o) (parent o) (Some v) (checksums o).
Definition set_checksums (v : gmap string string) (o : t) : t :=
  mk (__filepath o) (fileobj o) (path o) (name o) (type o) (parent o) (__ondisk o) (Some v).

(** A method runs on the instance and the file system. *)
Definition Method (A : Type) : Type := M (t * FS) A.

Definition self : Method t := fun s => (Return s.1, s).
Definition update (f : t -> t) : Method unit := modify (fun s => (f s.1, s.2)).
Definition on_fs {A} (c : M FS A) : Method A :=
  lift snd (fun fs s => (s.1, fs)) c.
Definition of_outcome {A} (o : Outcome A) : Method A := fun s => (o, s).

(** The [filepath] property: the transient path once there is one. *)
Definition filepath : Method string :=
  o ← self;
  match __ondisk o with
  | None => raise AttributeError
  | Some None => mret (__filepath o)
  | Some (Some p) => mret p
  end.

Section Methods.
(** The abstract property [inmemory] of the concrete class. *)
Variable inmemory : bool.
(** [pyrus.checksum.hexdigest], the checksum provider. *)
Variable hexdigest : FileInput -> string -> FS -> Outcome string.

Definition persist : Method unit :=
  update (set_ondisk None) ;;
  o ← self;
  if is_not_None (fileobj o) && negb inmemory then
    temp_dir ← on_fs (Os.mkdtemp "jsnoop.file.persist.");
    fp ← filepath;
    let temp_file := join temp_dir fp in
    on_fs (Os.makedirs (dirname temp_file)) ;;
    f0 ← of_outcome (seek0 (fileobj o));
    update (set_fileobj f0) ;;
    on_fs (Os.open_wb temp_file) ;;
    r ← of_outcome (read f0);
    update (set_fileobj r.2) ;;
    on_fs (Os.write temp_file r.1) ;;
    f1 ← of_outcome (seek0 r.2);
    update (set_fileobj f1) ;;
    update (set_ondisk (Some temp_file))
  else mret tt.

(** [__del__]: every exception is swallowed. *)
Definition __del__ : Method unit :=
  try_except
    (o ← self;
     match __ondisk o with
     | None => raise AttributeError
     | Some None => mret tt
     | Some (Some ondisk) =>
         if negb (is_empty ondisk)
         then on_fs (Os.rmtree (replace_by_empty (__filepath o) ondisk))
         else mret tt
     end)
    (fun _ => mret tt).

(** The loop body of [prepare_checksums]:
    [self.checksums[algorithm] = hexdigest(fileinput, algorithm)] *)
Definition checksum_step (fileinput : FileInput) (algorithm : string)
  : Method unit :=
  d ← (fun s => (hexdigest fileinput algorithm s.2, s));
  update (fun o =>
    set_checksums (<[algorithm := d]> (default ∅ (checksums o))) o).

(** The input of the digests: the path when the byte source is falsy
    (the path must then be an existing regular file), the byte source
    otherwise. *)
Definition choose_fileinput : Method FileInput :=
  o ← self;
  if negb (truthy (fileobj o)) then
    fp ← filepath;
    fs ← (fun s => (Return s.2, s));
    assert (Os.exists_ fs fp && Os.isfile fs fp) ;;
    mret (InPath fp)
  else mret (InObj (fileobj o)).

Definition prepare_checksums : Method unit :=
  fileinput ← choose_fileinput;
  update (set_checksums ∅) ;;
  for_each required_checksums (checksum_step fileinput).

(** The attribute assignments of [__init__] before [persist]. *)
Definition init_attrs (a : CtorArgs) : t :=
  {| __filepath := arg_filepath a;
     fileobj := arg_fileobj a;
     path := dirname (lstrip sep
               (replace_by_empty (arg_parent_path a) (arg_filepath a)));
     name := basename (arg_filepath a);
     type := lower (splitext_ext (arg_filepath a));
     parent := arg_parent_sha512 a;
     __ondisk := None;
     checksums := None |}.

Definition __init__ : Method unit :=
  persist ;; prepare_checksums.

(** Calling the class: the instance is handed out only when [__init__]
    returns. *)
Definition new (a : CtorArgs) : M FS t := fun fs =>
  match __init__ (init_attrs a, fs) with
  | (Return _, (o, fs')) => (Return o, fs')
  | (Raise e, (_, fs')) => (Raise e, fs')
  end.

End Methods.
End AbstractFile.

(** ** Handler classes and the module-level registry *)

Inductive HandlerClass : Type :=
  | ArchiveFile
  | ClassFile
  | ManifestFile
  | SignatureFile
  | SimpleFile.

#[global] Instance HandlerClass_eq_dec : EqDecision HandlerClass.
Proof. solve_decision. Defined.

(** An instance of a handler class. *)
Record Handler : Type := mkHandler {
  handler_class : HandlerClass;
  handler_obj : AbstractFile.t
}.

(** The argument of [ignore_extensions] and [unignore_extensions]:
    one extension or a list of them. *)
Inductive ExtArg : Type :=
  | OneExt (ext : string)
  | ManyExt (exts : list string).

Module Handlers.
Import PyStr PosixPath.

(** A dict display: later entries overwrite earlier ones. *)
Definition dict_literal {V} (l : list (string * V)) : gmap string V :=
  fold_left (fun m kv => <[kv.1 := kv.2]> m) l ∅.

Definition __MODULE_PREFIX : string := "jsnoop.handlers".
Definition __DEFAULT_MODULE : string := "simplefile".

Definition __CLASSES : gmap string string :=
  dict_literal
    [ ("archivefile", "ArchiveFile");
      ("javaclass", "ClassFile");
      ("manifest", "ManifestFile");
      ("signature", "SignatureFile");
      ("simplefile", "SimpleFile") ].

Definition __MODULES : gmap string string :=
  dict_literal
    [ (".mf", "manifest");
      (".rsa", "signature");
      (".dsa", "signature");
      (".class", "javaclass");
      (".zip", "archivefile");
      (".gz", "archivefile");
      (".bz2", "archivefile");
      (".tar", "archivefile");
      (".jar", "archivefile");
      (".war", "archivefile");
      (".sar", "archivefile");
      (".war", "archivefile") ].

(** [getattr(import_module(module), klass)]: the classes the handler
    modules of the package define. *)
Definition import_class (module klass : string) : option HandlerClass :=
  if bool_decide (module = "jsnoop.handlers.archivefile" ∧ klass = "ArchiveFile")
  then Some ArchiveFile
  else if bool_decide (module = "jsnoop.handlers.javaclass" ∧ klass = "ClassFile")
  then Some ClassFile
  else if bool_decide (module = "jsnoop.handlers.manifest" ∧ klass = "ManifestFile")
  then Some ManifestFile
  else if bool_decide (module = "jsnoop.handlers.signature" ∧ klass = "SignatureFile")
  then Some SignatureFile
  else if bool_decide (module = "jsnoop.handlers.simplefile" ∧ klass = "SimpleFile")
  then Some SimpleFile
  else None.

(** The mutable globals of the module, the file system, and (ghost) the
    classes whose constructor has been called so far, oldest first. *)
Record State : Type := mkState {
  __IGNORED_EXTENSIONS : list string;
  __LOADED : gmap string HandlerClass;
  fs : FS;
  calls : list HandlerClass
}.

Definition set_IGNORED (l : list string) (st : State) : State :=
  mkState l (__LOADED st) (fs st) (calls st).
Definition set_LOADED (m : gmap string HandlerClass) (st : State) : State :=
  mkState (__IGNORED_EXTENSIONS st) m (fs st) (calls st).
Definition set_fs (f : FS) (st : State) : State :=
  mkState (__IGNORED_EXTENSIONS st) (__LOADED st) f (calls st).
Definition set_calls (c : list HandlerClass) (st : State) : State :=
  mkState (__IGNORED_EXTENSIONS st) (__LOADED st) (fs st) c.

(** The keys of [__MODULES] (their order is not modelled). *)
Definition get_known_extensions (st : State) : list string :=
  (map_to_list __MODULES).*1.

Definition arg_exts (arg : ExtArg) : list string :=
  match arg with
  | OneExt ext => [ext]
  | ManyExt exts => exts
  end.

(** [ignore_extensions]. The function assigns [__IGNORED_EXTENSIONS]
    (by [+=]) and has no [global] declaration, so the name is a local
    variable of the function; the augmented assignment reads it first and
    finds it unbound. *)
Definition ignore_extensions (arg : ExtArg) : M State unit :=
  let exts := arg_exts arg in
  let exts := map lower exts in
  let local__IGNORED_EXTENSIONS : option (list string) := None in
  match local__IGNORED_EXTENSIONS with
  | None => raise UnboundLocalError
  | Some l =>
      let local__IGNORED_EXTENSIONS := Some (l ++ exts)%list in
      mret tt
  end.

(** [l.remove(x)]: the first occurrence goes. *)
Fixpoint list_remove (x : string) (l : list string) : list string :=
  match l with
  | [] => []
  | y :: t => if bool_decide (y = x) then t else y :: list_remove x t
  end.

Definition unignore_extensions (arg : ExtArg) : M State unit :=
  let exts := arg_exts arg in
  let exts := map lower exts in
  for_each exts (fun ext =>
    st ← get;
    if bool_decide (ext ∈ __IGNORED_EXTENSIONS st)
    then put (set_IGNORED (list_remove ext (__IGNORED_EXTENSIONS st)) st)
    else mret tt).

Definition ignored_extensions (st : State) : list string :=
  __IGNORED_EXTENSIONS st.

Definition is_ignored_extension (ext : string) (st : State) : bool :=
  bool_decide (lower ext ∈ __IGNORED_EXTENSIONS st).

(** The key of [__LOADED] for a module basename. *)
Definition fqn_of (module : string) : string :=
  let klass := default "None" (__CLASSES !! module) in
  (__MODULE_PREFIX ++ "." ++ module) ++ "." ++ klass.

Definition __handler_class (module : string) : M State HandlerClass :=
  let klass := __CLASSES !! module in
  let module' := __MODULE_PREFIX ++ "." ++ module in
  let fqn := module' ++ "." ++ default "None" klass in
  st ← get;
  match __LOADED st !! fqn with
  | Some k => mret k
  | None =>
      match klass ≫= import_class module' with
      | Some k => put (set_LOADED (<[fqn := k]> (__LOADED st)) st) ;; mret k
      | None => raise ImportError
      end
  end.

(** The module name [get_handler] settles on. *)
Definition get_handler_module (filename : string) : M State string :=
  try_except
    (let extension := lower (splitext_ext filename) in
     st ← get;
     if is_ignored_extension extension st
     then mret __DEFAULT_MODULE
     else mret (default __DEFAULT_MODULE (__MODULES !! extension)))
    (fun _ => mret __DEFAULT_MODULE).

Definition get_handler (filename : string) : M State HandlerClass :=
  module ← get_handler_module filename;
  __handler_class module.

Section Constructors.
(** The constructors of the concrete handler classes; their modules
    are not part of this file. *)
Variable cls_new : HandlerClass -> CtorArgs -> M FS AbstractFile.t.

(** [klass(filepath, fileobj, parent_path, parent_sha512)] *)
Definition instantiate (klass : HandlerClass) (a : CtorArgs) : M State Handler :=
  modify (fun st => set_calls (calls st ++ [klass])%list st) ;;
  o ← lift fs set_fs (cls_new klass a);
  mret (mkHandler klass o).

Definition get_handler_obj (a : CtorArgs) : M State Handler :=
  try_except
    (klass ← __handler_class "archivefile";
     instantiate klass a)
    (fun e =>
       if is_ValueError e then
         handler ← get_handler (arg_filepath a);
         instantiate handler a
       else raise e).

End Constructors.
End Handlers.

(** ** Concrete collaborators, for running the model *)

Module Demo.
Import PyStr PosixPath.

Definition hexdigit (n : nat) : ascii :=
  nth (n mod 16) (list_ascii_of_string "0123456789abcdef") "0"%char.

Definition hex2 (n : nat) : string :=
  String (hexdigit (n / 16)) (String (hexdigit n) EmptyString).

Definition b (s : string) : bytes := list_byte_of_string s.

(** The bytes a checksum provider reads from its input. *)
Definition input_bytes (i : FileInput) (fs : FS) : Outcome bytes :=
  match i with
  | InPath p =>
      match Os.read_file fs p with
      | Some c => Return c
      | None => Raise FileNotFoundError
      end
  | InObj (PyFile c _) => Return c
  | InObj (PyBytes c) => Return c
  | InObj PyNone => Raise AttributeError
  end.

(** A stand-in for [pyrus.checksum.hexdigest]: two hex digits for the
    algorithm name, two for the length of the input and two for the sum of
    its bytes. *)
Definition hexdigest (i : FileInput) (algorithm : string) (fs : FS) : Outcome string :=
  match input_bytes i fs with
  | Return c =>
      Return (hex2 (String.length algorithm) ++ hex2 (List.length c)
              ++ hex2 (list_sum (map Byte.to_nat c)))
  | Raise e => Raise e
  end.

Definition is_zip (c : bytes) : bool :=
  match c with
  | x :: y :: _ => Byte.eqb x Byte.x50 && Byte.eqb y Byte.x4b
  | _ => false
  end.

(** Modelled from the spec: the abstract property [inmemory] of the
    handler classes, whose modules (archivefile, javaclass, manifest,
    signature, simplefile) are not part of the sources at hand. Each
    variant declares whether it needs on-disk backing; here the Archive
    variant does and the others work in memory. *)
Definition inmemory (k : HandlerClass) : bool :=
  match k with ArchiveFile => false | _ => true end.

(** Modelled from the spec: the constructors of the handler classes, whose
    modules are not part of the sources at hand. Every variant runs the
    initialisation of [AbstractFile]; the Archive variant then validates
    the container format and raises [ValueError] ("not a recognized
    container") unless the bytes start with the zip magic. *)
Definition cls_new (k : HandlerClass) (a : CtorArgs) : M FS AbstractFile.t :=
  o ← AbstractFile.new (inmemory k) hexdigest a;
  match k with
  | ArchiveFile =>
      fs ← get;
      match input_bytes (if is_not_None (AbstractFile.fileobj o)
                         then InObj (AbstractFile.fileobj o)
                         else InPath (AbstractFile.__filepath o)) fs with
      | Return c => if is_zip c then mret o else raise ValueError
      | Raise e => raise e
      end
  | _ => mret o
  end.

(** A file system with a temporary directory and a few files. *)
Definition fs0 : FS :=
  {| fs_dirs := {["/"; "/tmp"; "lib"]};
     fs_files := {[ "bad.zip" := b "not a zip";
                    "notes.mf" := b "PK-archive";
                    "plain.mf" := b "Manifest-Version: 1.0";
                    "lib/a.zzz" := b "plain" ]};
     fs_tmpdir := "/tmp";
     fs_names := ["k3x_9qpa"; "w0v2_mzt"; "a8c1d5e7"] |}.

Definition st0 : Handlers.State :=
  {| Handlers.__IGNORED_EXTENSIONS := [];
     Handlers.__LOADED := ∅;
     Handlers.fs := fs0;
     Handlers.calls := [] |}.

(** Arguments of the scenarios. *)
Definition bad_zip : CtorArgs := mkArgs "bad.zip" PyNone "" None.
Definition notes_mf : CtorArgs := mkArgs "notes.mf" PyNone "" None.
Definition plain_mf : CtorArgs := mkArgs "plain.mf" PyNone "" None.
Definition plain_zzz : CtorArgs := mkArgs "lib/a.zzz" PyNone "" None.
Definition nested : CtorArgs :=
  mkArgs "a/a/f.txt" (PyFile (b "x") 0) "a/" None.

End Demo.

(** ** [AbstractFile.info] *)

Module Info.
Import AbstractFile.

(** [self.__class__.__name__] *)
Definition class_name (k : HandlerClass) : string :=
  match k with
  | ArchiveFile => "ArchiveFile"
  | ClassFile => "ClassFile"
  | ManifestFile => "ManifestFile"
  | SignatureFile => "SignatureFile"
  | SimpleFile => "SimpleFile"
  end.

(** The five entries [info] writes first; a value is a string or [None]. *)
Definition fixed_info (h : Handler) : gmap string (option string) :=
  let o := handler_obj h in
  let fileinfo := ∅ in
  let fileinfo := <["path" := Some (path o)]> fileinfo in
  let fileinfo := <["name" := Some (name o)]> fileinfo in
  let fileinfo := <["type" := Some (type o)]> fileinfo in
  let fileinfo := <["parent" := parent o]> fileinfo in
  let fileinfo := <["handler" := Some (class_name (handler_class h))]> fileinfo in
  fileinfo.

(** [info]: the fixed entries, then [fileinfo[key] = self.checksums[key]] for
    every key of [checksums] (whose order is not modelled); reading
    [checksums] before it is assigned raises [AttributeError]. *)
Definition info (h : Handler) : Outcome (gmap string (option string)) :=
  match checksums (handler_obj h) with
  | None => Raise AttributeError
  | Some cs =>
      Return (fold_left (fun fileinfo kv => <[kv.1 := Some kv.2]> fileinfo)
                (map_to_list cs) (fixed_info h))
  end.

End Info.

(** ** Vocabulary of the properties *)

Module Props.
Import PyStr PosixPath Handlers.

(** The handler class a module basename stands for. *)
Definition class_of_module (module : string) : option HandlerClass :=
  __CLASSES !! module ≫= import_class (__MODULE_PREFIX ++ "." ++ module).

(** Extension-based classification: the class [get_handler] settles on
    for a file name, read off the tables and the ignore list. *)
Definition classify (filename : string) (st : State) : HandlerClass :=
  let extension := lower (splitext_ext filename) in
  let module := if is_ignored_extension extension st then __DEFAULT_MODULE
                else default __DEFAULT_MODULE (__MODULES !! extension) in
  default SimpleFile (class_of_module module).

(** Every class cached in [__LOADED] is the one its key names. *)
Definition LOADED_ok (st : State) : Prop :=
  forall module k,
    is_Some (__CLASSES !! module) ->
    __LOADED st !! fqn_of module = Some k ->
    class_of_module module = Some k.

Definition handler_modules : list string :=
  ["archivefile"; "javaclass"; "manifest"; "signature"; "simplefile"].

(** The state after the constructor of [k] ran in [st] and left the file
    system [fs']. *)
Definition after_call (k : HandlerClass) (fs' : FS) (st : State) : State :=
  set_fs fs' (set_calls (calls st ++ [k])%list st).

(** The fallback was taken for [a] between [st] and [st']: after the
    archive constructor, the constructor of the class the extension-based
    classification gives for the file path was called, and no other. *)
Definition fallback_taken (a : CtorArgs) (st st' : State) : Prop :=
  calls st' = (calls st ++ [ArchiveFile; classify (arg_filepath a) st])%list.

(** The second half of the fallback-ordering property read literally:
    when the archive constructor rejects the input with [ValueError],
    [get_handler_obj] returns an instance of the class of the
    extension-based classification. *)
Definition fallback_returns
    (cls_new : HandlerClass -> CtorArgs -> M FS AbstractFile.t)
    (a : CtorArgs) (st : State) : Prop :=
  (exists e, (cls_new ArchiveFile a (fs st)).1 = Raise e /\ is_ValueError e = true) ->
  exists o,
    (get_handler_obj cls_new a st).1
    = Return (mkHandler (classify (arg_filepath a) st) o).

(** Modelled from the spec: stripping the path prefix of the containing
    artifact, where the file path starts with it. *)
Definition strip_prefix (prefix s : string) : string :=
  if startswith prefix s then drop (String.length prefix) s else s.

(** Modelled from the spec: the reported path, the directory part of the
    file path with the parent path stripped as a prefix and leading
    separators removed. *)
Definition reported_path_spec (parent_path filepath : string) : string :=
  dirname (lstrip sep (strip_prefix parent_path filepath)).

(** Two instances agree on every attribute but [checksums]. *)
Definition same_but_checksums (o o' : AbstractFile.t) : Prop :=
  AbstractFile.__filepath o' = AbstractFile.__filepath o
  /\ AbstractFile.fileobj o' = AbstractFile.fileobj o
  /\ AbstractFile.path o' = AbstractFile.path o
  /\ AbstractFile.name o' = AbstractFile.name o
  /\ AbstractFile.type o' = AbstractFile.type o
  /\ AbstractFile.parent o' = AbstractFile.parent o
  /\ AbstractFile.__ondisk o' = AbstractFile.__ondisk o.

(** Two instances agree on the attributes [__init__] assigns itself. *)
Definition same_identity (o o' : AbstractFile.t) : Prop :=
  AbstractFile.__filepath o' = AbstractFile.__filepath o
  /\ AbstractFile.path o' = AbstractFile.path o
  /\ AbstractFile.name o' = AbstractFile.name o
  /\ AbstractFile.type o' = AbstractFile.type o
  /\ AbstractFile.parent o' = AbstractFile.parent o.

End Props.

(** ** Vocabulary of the further properties *)

Module MoreProps.
Import PyStr PosixPath AbstractFile.

(** The input [prepare_checksums] settles on when nothing is materialized:
    the byte source when it is truthy, else the path, which must then be an
    existing regular file. *)
Definition plain_input (a : CtorArgs) (fs : FS) : Outcome FileInput :=
  if truthy (arg_fileobj a) then Return (InObj (arg_fileobj a))
  else if Os.exists_ fs (arg_filepath a) && Os.isfile fs (arg_filepath a)
       then Return (InPath (arg_filepath a))
       else Raise AssertionError.

(** From [fs] to [fs'] no directory went, and no file but [p] changed. *)
Definition fs_extends (p : string) (fs fs' : FS) : Prop :=
  (forall d, d ∈ fs_dirs fs -> d ∈ fs_dirs fs')
  /\ (forall q, q <> p -> fs_files fs' !! q = fs_files fs !! q).

(** A checksum provider without sha512: asked for it, it raises
    [ValueError], as [hashlib] does for a hash it does not know. *)
Definition hexdigest_no_sha512 (i : FileInput) (algorithm : string) (fs : FS)
  : Outcome string :=
  if bool_decide (algorithm = "sha512") then Raise ValueError
  else Demo.hexdigest i algorithm fs.




End MoreProps.

(** ** The fallback condition in the words of the specification *)

Module FallbackSpec.
Import Handlers Props.

(** Modelled from the spec: the constructors of the handler classes, as
    [Demo.cls_new] has them, over any checksum provider. Every variant runs
    the initialisation of [AbstractFile]; the Archive variant then validates
    the container format and raises [ValueError] ("not a recognized
    container") unless the bytes start with the zip magic. *)
Definition cls_new_with
    (hexdigest : FileInput -> string -> FS -> Outcome string)
    (k : HandlerClass) (a : CtorArgs) : M FS AbstractFile.t :=
  o ← AbstractFile.new (Demo.inmemory k) hexdigest a;
  match k with
  | ArchiveFile =>
      fs ← get;
      match Demo.input_bytes (if is_not_None (AbstractFile.fileobj o)
                              then InObj (AbstractFile.fileobj o)
                              else InPath (AbstractFile.__filepath o)) fs with
      | Return c => if Demo.is_zip c then mret o else raise ValueError
      | Raise e => raise e
      end
  | _ => mret o
  end.

(** Modelled from the spec: the forced archive construction fails with a
    container-format validation failure, that is, the initialisation went
    through, the bytes were read, and they are not a recognized
    container. *)
Definition format_failure
    (hexdigest : FileInput -> string -> FS -> Outcome string)
    (a : CtorArgs) (fs : FS) : bool :=
  match AbstractFile.new (Demo.inmemory ArchiveFile) hexdigest a fs with
  | (Return o, fs') =>
      match Demo.input_bytes (if is_not_None (AbstractFile.fileobj o)
                              then InObj (AbstractFile.fileobj o)
                              else InPath (AbstractFile.__filepath o)) fs' with
      | Return c => negb (Demo.is_zip c)
      | Raise _ => false
      end
  | (Raise _, _) => false
  end.

(** Modelled from the spec: the fallback to the extension-based
    classification is taken if and only if the forced archive construction
    fails with a container-format validation failure. *)
Definition fallback_iff_format_failure
    (cls_new : HandlerClass -> CtorArgs -> M FS AbstractFile.t)
    (format_failure : CtorArgs -> FS -> bool)
    (a : CtorArgs) (st : State) : Prop :=
  fallback_taken a st (get_handler_obj cls_new a st).2
  <-> format_failure a (fs st) = true.

End FallbackSpec.

(** * Properties *)

Ltac unfold_m :=
  unfold mbind, mret, M_bind, M_ret, bind, ret, raise, get, put, modify,
         try_except, lift, assert in *.


(** ** The string and path functions on examples *)

Example lower_ex : PyStr.lower ".MF" = ".mf". Proof. reflexivity. Qed.
Example dirname_ex1 : PosixPath.dirname "a/b/c.txt" = "a/b". Proof. reflexivity. Qed.
Example dirname_ex2 : PosixPath.dirname "c.txt" = "". Proof. reflexivity. Qed.
Example dirname_ex3 : PosixPath.dirname "/c.txt" = "/". Proof. reflexivity. Qed.
Example dirname_ex4 : PosixPath.dirname "x//y.txt" = "x". Proof. reflexivity. Qed.
Example basename_ex : PosixPath.basename "a/b/c.txt" = "c.txt". Proof. reflexivity. Qed.
Example splitext_ex1 : PosixPath.splitext_ext "a.d/x.tar.GZ" = ".GZ". Proof. reflexivity. Qed.
Example splitext_ex2 : PosixPath.splitext_ext "a.d/.bashrc" = "". Proof. reflexivity. Qed.
Example splitext_ex3 : PosixPath.splitext_ext "a.d/noext" = "". Proof. reflexivity. Qed.
Example splitext_ex4 : PosixPath.splitext_ext "..a.b" = ".b". Proof. reflexivity. Qed.
Example join_ex1 : PosixPath.join "/tmp/d" "a/b" = "/tmp/d/a/b". Proof. reflexivity. Qed.
Example join_ex2 : PosixPath.join "/tmp/d" "/a/b" = "/a/b". Proof. reflexivity. Qed.
Example replace_ex1 : PyStr.replace_by_empty "a/" "a/b/a/c.txt" = "b/c.txt". Proof. reflexivity. Qed.
Example replace_ex2 : PyStr.replace_by_empty "" "a/b" = "a/b". Proof. reflexivity. Qed.
Example replace_ex3 : PyStr.replace_by_empty "aa" "aaa/x" = "a/x". Proof. reflexivity. Qed.
Example occurs_ex : PyStr.occurs "tmp/j" "/tmp/jsnoop.file.persist.k3x_9qpa/tmp/j" = true.
Proof. reflexivity. Qed.

Module HandlersFacts.
Import PyStr PosixPath Handlers Props.

Lemma CLASSES_keys module :
  is_Some (__CLASSES !! module) -> module ∈ handler_modules.
Proof.
  intros [klass H]. apply elem_of_map_to_list in H.
  assert (E : (map_to_list __CLASSES).*1 ⊆ handler_modules).
  { apply (bool_decide_unpack _). vm_compute. reflexivity. }
  apply E. apply list_elem_of_fmap. exists (module, klass). auto.
Qed.

Lemma fqn_of_inj m m' :
  m ∈ handler_modules -> m' ∈ handler_modules ->
  fqn_of m = fqn_of m' -> m = m'.
Proof.
  assert (E : Forall (fun a => Forall (fun c => fqn_of a = fqn_of c -> a = c)
                                 handler_modules) handler_modules).
  { apply (bool_decide_unpack _). vm_compute. reflexivity. }
  intros Hm Hm'. rewrite Forall_forall in E.
  specialize (E m Hm). rewrite Forall_forall in E. exact (E m' Hm').
Qed.

Lemma set_LOADED_id st : set_LOADED (__LOADED st) st = st.
Proof. destruct st; reflexivity. Qed.

(** [__handler_class] answers the class of the module and keeps the cache
    consistent; nothing but the cache changes. *)
Lemma handler_class_ok module k st :
  LOADED_ok st ->
  class_of_module module = Some k ->
  exists ld,
    __handler_class module st = (Return k, set_LOADED ld st)
    /\ LOADED_ok (set_LOADED ld st).
Proof.
  intros Hok Hk.
  assert (Hin : is_Some (__CLASSES !! module)).
  { unfold class_of_module in Hk. destruct (__CLASSES !! module); eauto.
    discriminate. }
  pose proof Hk as Hk'. unfold class_of_module in Hk'.
  unfold __handler_class. unfold_m.
  change (((__MODULE_PREFIX ++ "." ++ module) ++ "."
           ++ default "None" (__CLASSES !! module))) with (fqn_of module).
  destruct (__LOADED st !! fqn_of module) as [k'|] eqn:E.
  - exists (__LOADED st). rewrite set_LOADED_id.
    rewrite (Hok _ _ Hin E) in Hk. injection Hk as ->. auto.
  - rewrite Hk'.
    exists (<[fqn_of module := k]> (__LOADED st)). split; [reflexivity|].
    intros m' k' Hin' Hl. simpl in Hl.
    destruct (decide (fqn_of module = fqn_of m')) as [Heq|Hne].
    + rewrite Heq, lookup_insert_eq in Hl. injection Hl as <-.
      apply fqn_of_inj in Heq; auto using CLASSES_keys. subst m'.
      exact Hk.
    + rewrite lookup_insert_ne in Hl by exact Hne. apply Hok; auto.
Qed.

Lemma MODULES_values :
  map_Forall (fun _ module => is_Some (class_of_module module)) __MODULES.
Proof. apply (bool_decide_unpack _). vm_compute. reflexivity. Qed.

Lemma DEFAULT_MODULE_class : class_of_module __DEFAULT_MODULE = Some SimpleFile.
Proof. vm_compute. reflexivity. Qed.

Lemma archivefile_class : class_of_module "archivefile" = Some ArchiveFile.
Proof. vm_compute. reflexivity. Qed.

(** The module [get_handler] settles on always names a handler class. *)
Lemma chosen_module_class extension (ignored : bool) :
  is_Some (class_of_module
             (if ignored then __DEFAULT_MODULE
              else default __DEFAULT_MODULE (__MODULES !! extension))).
Proof.
  destruct ignored; [rewrite DEFAULT_MODULE_class; eauto|].
  destruct (__MODULES !! extension) as [m|] eqn:E; simpl.
  - exact (MODULES_values _ _ E).
  - rewrite DEFAULT_MODULE_class; eauto.
Qed.

(** [get_handler] never fails and answers the class of the tables. *)
Lemma get_handler_ok filename st :
  LOADED_ok st ->
  exists ld,
    get_handler filename st = (Return (classify filename st), set_LOADED ld st)
    /\ LOADED_ok (set_LOADED ld st).
Proof.
  intros Hok.
  destruct (chosen_module_class (lower (splitext_ext filename))
              (is_ignored_extension (lower (splitext_ext filename)) st))
    as [k Hk].
  destruct (handler_class_ok _ _ _ Hok Hk) as (ld & Hc & Hok').
  exists ld. split; [|exact Hok'].
  unfold classify. rewrite Hk. simpl.
  unfold get_handler, get_handler_module. unfold_m.
  destruct (is_ignored_extension (lower (splitext_ext filename)) st);
    exact Hc.
Qed.

Section Constructors.
Variable cls_new : HandlerClass -> CtorArgs -> M FS AbstractFile.t.

Lemma instantiate_eq k a st :
  instantiate cls_new k a st =
  match cls_new k a (fs st) with
  | (Return o, fs') => (Return (mkHandler k o), after_call k fs' st)
  | (Raise e, fs') => (Raise e, after_call k fs' st)
  end.
Proof.
  unfold instantiate, after_call. unfold_m. simpl.
  destruct (cls_new k a (fs st)) as [[o|e] fs']; reflexivity.
Qed.

(** The whole of [get_handler_obj], by the outcome of the forced
    archive attempt. *)
Lemma get_handler_obj_cases a st :
  LOADED_ok st ->
  exists ld ld',
    get_handler_obj cls_new a st =
    match cls_new ArchiveFile a (fs st) with
    | (Return o, fs1) =>
        (Return (mkHandler ArchiveFile o),
         after_call ArchiveFile fs1 (set_LOADED ld st))
    | (Raise e, fs1) =>
        if is_ValueError e then
          instantiate cls_new (classify (arg_filepath a) st) a
            (set_LOADED ld' (after_call ArchiveFile fs1 (set_LOADED ld st)))
        else (Raise e, after_call ArchiveFile fs1 (set_LOADED ld st))
    end
    /\ LOADED_ok (set_LOADED ld st) /\ LOADED_ok (set_LOADED ld' st).
Proof.
  intros Hok.
  destruct (handler_class_ok _ _ _ Hok archivefile_class) as (ld & Hc & Hok1).
  exists ld.
  destruct (cls_new ArchiveFile a (fs st)) as [[o|e] fs1] eqn:E.
  - exists ld. split; [|auto]. unfold get_handler_obj. unfold_m. rewrite Hc.
    fold (instantiate cls_new ArchiveFile a (set_LOADED ld st)).
    rewrite instantiate_eq. simpl. rewrite E. reflexivity.
  - assert (Hok2 : LOADED_ok (after_call ArchiveFile fs1 (set_LOADED ld st)))
      by exact Hok1.
    destruct (get_handler_ok (arg_filepath a) _ Hok2) as (ld' & Hg & Hok3).
    exists ld'. split; [|split; [exact Hok1|exact Hok3]].
    unfold get_handler_obj. unfold_m. rewrite Hc.
    fold (instantiate cls_new ArchiveFile a (set_LOADED ld st)).
    rewrite instantiate_eq. simpl. rewrite E.
    destruct (is_ValueError e); [|reflexivity].
    rewrite Hg. reflexivity.
Qed.

(** The consistency of the class cache is kept by [get_handler_obj]. *)
Lemma get_handler_obj_keeps_LOADED_ok a st :
  LOADED_ok st -> LOADED_ok (get_handler_obj cls_new a st).2.
Proof.
  intros Hok.
  destruct (get_handler_obj_cases a st Hok) as (ld & ld' & -> & Hok1 & Hok2).
  destruct (cls_new ArchiveFile a (fs st)) as [[o|e] fs1]; [exact Hok1|].
  destruct (is_ValueError e); [|exact Hok1].
  rewrite instantiate_eq. simpl.
  destruct (cls_new _ a fs1) as [[o|e'] fs2]; exact Hok2.
Qed.
End Constructors.
End HandlersFacts.

Section FallbackOrder.
Import PyStr PosixPath Handlers Props HandlersFacts.
Variable cls_new : HandlerClass -> CtorArgs -> M FS AbstractFile.t.

(** The forced archive attempt succeeded: its instance is the result. *)
Lemma archive_first a st o :
  LOADED_ok st ->
  (cls_new ArchiveFile a (fs st)).1 = Return o ->
  exists ld,
    get_handler_obj cls_new a st
    = (Return (mkHandler ArchiveFile o),
       after_call ArchiveFile (cls_new ArchiveFile a (fs st)).2 (set_LOADED ld st)).
Proof.
  intros Hok H. destruct (get_handler_obj_cases cls_new a st Hok) as (ld & ld' & E & _).
  exists ld. rewrite E.
  destruct (cls_new ArchiveFile a (fs st)) as [[o'|e] fs1]; simpl in *;
    congruence.
Qed.

(** The attempt failed with something else than [ValueError]: it
    propagates. *)
Lemma archive_other_failure a st e :
  LOADED_ok st ->
  (cls_new ArchiveFile a (fs st)).1 = Raise e ->
  is_ValueError e = false ->
  exists ld,
    get_handler_obj cls_new a st
    = (Raise e,
       after_call ArchiveFile (cls_new ArchiveFile a (fs st)).2 (set_LOADED ld st)).
Proof.
  intros Hok H Hv. destruct (get_handler_obj_cases cls_new a st Hok) as (ld & ld' & E & _).
  exists ld. rewrite E.
  destruct (cls_new ArchiveFile a (fs st)) as [[o'|e'] fs1]; simpl in *;
    [congruence|]. injection H as ->. rewrite Hv. reflexivity.
Qed.

(** The attempt failed with [ValueError]: the class of the
    extension-based classification is instantiated on the file system the
    attempt left. *)
Lemma archive_rejected a st e :
  LOADED_ok st ->
  (cls_new ArchiveFile a (fs st)).1 = Raise e ->
  is_ValueError e = true ->
  exists ld,
    get_handler_obj cls_new a st
    = instantiate cls_new (classify (arg_filepath a) st) a
        (after_call ArchiveFile (cls_new ArchiveFile a (fs st)).2 (set_LOADED ld st)).
Proof.
  intros Hok H Hv. destruct (get_handler_obj_cases cls_new a st Hok) as (ld & ld' & E & _).
  exists ld'. rewrite E.
  destruct (cls_new ArchiveFile a (fs st)) as [[o'|e'] fs1]; simpl in *;
    [congruence|]. injection H as ->. rewrite Hv. reflexivity.
Qed.

(** C1 (amended). A successful archive construction wins whatever the
    extension. When the archive constructor raises [ValueError], the class
    of the extension-based classification ([SimpleFile] for an ignored or
    unmapped extension) is constructed on the file system the attempt left:
    its instance is returned when that construction succeeds, and its
    exception propagates when it fails. *)
Theorem get_handler_obj_fallback_order a st :
  LOADED_ok st ->
  let attempt := cls_new ArchiveFile a (fs st) in
  let k := classify (arg_filepath a) st in
  let extension := lower (splitext_ext (arg_filepath a)) in
  (forall o, attempt.1 = Return o ->
     (get_handler_obj cls_new a st).1 = Return (mkHandler ArchiveFile o))
  /\ (forall e, attempt.1 = Raise e -> is_ValueError e = true ->
        (get_handler_obj cls_new a st).1
        = match (cls_new k a attempt.2).1 with
          | Return o => Return (mkHandler k o)
          | Raise e' => Raise e'
          end)
  /\ (is_ignored_extension extension st = true -> k = SimpleFile)
  /\ (__MODULES !! extension = None -> k = SimpleFile).
Proof.
  intros Hok attempt k extension. repeat split.
  - intros o H. destruct (archive_first a st o Hok H) as (ld & ->). reflexivity.
  - intros e H Hv. destruct (archive_rejected a st e Hok H Hv) as (ld & ->).
    rewrite instantiate_eq. simpl. fold attempt. fold k.
    destruct (cls_new k a attempt.2) as [[o|e'] fs2]; reflexivity.
  - intros Hi. unfold k, classify. fold extension. rewrite Hi.
    rewrite DEFAULT_MODULE_class. reflexivity.
  - intros Hn. unfold k, classify. fold extension. rewrite Hn. simpl.
    destruct (is_ignored_extension extension st);
      rewrite DEFAULT_MODULE_class; reflexivity.
Qed.

(** C2 (amended). The fallback is taken exactly when the forced archive
    attempt raised a [ValueError], whatever raised it: the constructor of
    the class of the extension-based classification is then called, on the
    file system the attempt left, and its outcome is the outcome of
    [get_handler_obj], so that the [ValueError] of the attempt is never
    seen by the caller. Any other exception of the attempt is the outcome
    of [get_handler_obj], with the file system as the attempt left it and
    no further constructor called; and so is an instance it returns. *)
Theorem fallback_iff_ValueError a st :
  LOADED_ok st ->
  let attempt := cls_new ArchiveFile a (fs st) in
  let r := get_handler_obj cls_new a st in
  let k := classify (arg_filepath a) st in
  (fallback_taken a st r.2 <->
     exists e, attempt.1 = Raise e /\ is_ValueError e = true)
  /\ (forall e, attempt.1 = Raise e -> is_ValueError e = true ->
        r.1 = match (cls_new k a attempt.2).1 with
              | Return o => Return (mkHandler k o)
              | Raise e' => Raise e'
              end
        /\ fs r.2 = (cls_new k a attempt.2).2)
  /\ (forall e, attempt.1 = Raise e -> is_ValueError e = false ->
        r.1 = Raise e /\ fs r.2 = attempt.2
        /\ calls r.2 = (calls st ++ [ArchiveFile])%list)
  /\ (forall o, attempt.1 = Return o ->
        r.1 = Return (mkHandler ArchiveFile o) /\ fs r.2 = attempt.2
        /\ calls r.2 = (calls st ++ [ArchiveFile])%list).
Proof.
  intros Hok attempt r k. repeat apply conj.
  - intros Hk. subst r. unfold fallback_taken in Hk.
    destruct (attempt.1) as [o|e] eqn:E.
    + destruct (archive_first a st o Hok E) as (ld & H). rewrite H in Hk.
      simpl in Hk. apply app_inv_head in Hk. discriminate.
    + destruct (is_ValueError e) eqn:Hv; [eauto|].
      destruct (archive_other_failure a st e Hok E Hv) as (ld & H).
      rewrite H in Hk. simpl in Hk. apply app_inv_head in Hk. discriminate.
  - intros (e & E & Hv). subst r. unfold fallback_taken.
    destruct (archive_rejected a st e Hok E Hv) as (ld & ->).
    rewrite instantiate_eq. simpl.
    destruct (cls_new (classify (arg_filepath a) st) a _) as [[o|e'] fs2];
      simpl; rewrite <- app_assoc; reflexivity.
  - intros e E Hv. subst r.
    destruct (archive_rejected a st e Hok E Hv) as (ld & ->).
    rewrite instantiate_eq. simpl. fold attempt. fold k.
    destruct (cls_new k a attempt.2) as [[o|e'] fs2]; split; reflexivity.
  - intros e E Hv. subst r.
    destruct (archive_other_failure a st e Hok E Hv) as (ld & ->). auto.
  - intros o E. subst r.
    destruct (archive_first a st o Hok E) as (ld & ->). auto.
Qed.

(** C9. When the archive constructor accepts the input, [get_handler_obj]
    returns the Archive handler whatever the ignore list holds, the
    extension of the file included: only the archive constructor is
    called and the file system is the one it left. *)
Theorem archive_wins_over_ignore_list a st o :
  LOADED_ok st ->
  (cls_new ArchiveFile a (fs st)).1 = Return o ->
  forall ignored : list string,
    let r := get_handler_obj cls_new a (set_IGNORED ignored st) in
    r.1 = Return (mkHandler ArchiveFile o)
    /\ calls r.2 = (calls st ++ [ArchiveFile])%list
    /\ fs r.2 = (cls_new ArchiveFile a (fs st)).2
    /\ __IGNORED_EXTENSIONS r.2 = ignored.
Proof.
  intros Hok H ignored r. subst r.
  assert (Hok' : LOADED_ok (set_IGNORED ignored st)) by exact Hok.
  destruct (archive_first a (set_IGNORED ignored st) o Hok' H) as (ld & ->).
  auto.
Qed.

End FallbackOrder.

Section IgnoreList.
Import PyStr PosixPath Handlers Props HandlersFacts.

(** [ignore_extensions] raises on every argument and changes nothing. *)
Lemma ignore_extensions_raises arg st :
  ignore_extensions arg st = (Raise UnboundLocalError, st).
Proof. reflexivity. Qed.

(** The loop of [unignore_extensions] over extensions none of which is in
    the list. *)
Lemma unignore_loop_absent exts st :
  Forall (fun ext => ext ∉ __IGNORED_EXTENSIONS st) exts ->
  for_each exts (fun ext =>
    st ← get;
    if bool_decide (ext ∈ __IGNORED_EXTENSIONS st)
    then put (set_IGNORED (list_remove ext (__IGNORED_EXTENSIONS st)) st)
    else mret tt) st = (Return tt, st).
Proof.
  induction 1 as [|ext exts Hx _ IH]; [reflexivity|].
  simpl. unfold_m. rewrite bool_decide_eq_false_2 by exact Hx. exact IH.
Qed.

(** Removing extensions that are not ignored is a no-op without error. *)
Lemma unignore_absent_noop arg st :
  Forall (fun ext => lower ext ∉ __IGNORED_EXTENSIONS st) (arg_exts arg) ->
  unignore_extensions arg st = (Return tt, st).
Proof.
  intros H. unfold unignore_extensions. apply unignore_loop_absent.
  apply Forall_fmap. exact H.
Qed.

(** [get_handler] honours the ignore list as it stands. *)
Lemma get_handler_ignored filename st :
  LOADED_ok st ->
  is_ignored_extension (lower (splitext_ext filename)) st = true ->
  (get_handler filename st).1 = Return SimpleFile.
Proof.
  intros Hok Hi. destruct (get_handler_ok filename st Hok) as (ld & -> & _).
  simpl. unfold classify. rewrite Hi, DEFAULT_MODULE_class. reflexivity.
Qed.

(** C3 (the code at the failing input). [ignore_extensions('.mf')] raises
    [UnboundLocalError] and leaves the state as it was: afterwards ".mf" is
    not ignored and [get_handler] still resolves "notes.mf" to the manifest
    handler. *)
Theorem ignore_extensions_does_not_register :
  let r := ignore_extensions (OneExt ".mf") Demo.st0 in
  r = (Raise UnboundLocalError, Demo.st0)
  /\ is_ignored_extension ".mf" r.2 = false
  /\ (get_handler "notes.mf" r.2).1 = Return ManifestFile.
Proof. vm_compute. auto. Qed.

(** C4 (the code at the failing input). With ".mf" already in the ignore
    list, [ignore_extensions('.mf')] raises [UnboundLocalError]; the list
    and the known extensions stay as they were. *)
Theorem ignore_extensions_again_raises :
  let st := set_IGNORED [".mf"] Demo.st0 in
  let r := ignore_extensions (OneExt ".mf") st in
  is_ignored_extension ".mf" st = true
  /\ r.1 = Raise UnboundLocalError
  /\ r.2 = st
  /\ get_known_extensions r.2 = get_known_extensions st.
Proof. vm_compute. auto. Qed.

End IgnoreList.

Lemma for_each_cons {S A} (x : A) (l : list A) (body : A -> M S unit) s :
  for_each (x :: l) body s
  = match body x s with
    | (Return _, s') => for_each l body s'
    | (Raise e, s') => (Raise e, s')
    end.
Proof. reflexivity. Qed.

Module AbstractFileFacts.
Import PyStr PosixPath AbstractFile Props.

Section Methods.
Variable inmemory : bool.
Variable hexdigest : FileInput -> string -> FS -> Outcome string.

Lemma checksum_step_eq fileinput alg o fs :
  checksum_step hexdigest fileinput alg (o, fs)
  = match hexdigest fileinput alg fs with
    | Return d =>
        (Return tt,
         (set_checksums (<[alg := d]> (default ∅ (checksums o))) o, fs))
    | Raise e => (Raise e, (o, fs))
    end.
Proof.
  unfold checksum_step, update. unfold_m. simpl.
  destruct (hexdigest fileinput alg fs); reflexivity.
Qed.

(** The digest loop touches [checksums] only; when it returns, every
    algorithm of the list is mapped to the digest the provider answered
    for it, and the other keys are as before. *)
Lemma checksum_loop fileinput l : forall o fs cs0 r o' fs',
  checksums o = Some cs0 ->
  for_each l (checksum_step hexdigest fileinput) (o, fs) = (r, (o', fs')) ->
  fs' = fs /\ same_but_checksums o o'
  /\ (r = Return tt ->
      exists cs, checksums o' = Some cs
        /\ (forall alg, alg ∈ l ->
              exists d, cs !! alg = Some d
                        /\ hexdigest fileinput alg fs = Return d)
        /\ (forall alg, alg ∉ l -> cs !! alg = cs0 !! alg)).
Proof.
  induction l as [|alg l IH]; intros o fs cs0 r o' fs' Hcs H.
  - injection H as <- <- <-. unfold same_but_checksums.
    repeat split; auto. intros _. exists cs0. repeat split; auto.
    intros alg Hin. inversion Hin.
  - rewrite for_each_cons, checksum_step_eq in H.
    destruct (hexdigest fileinput alg fs) as [d|e] eqn:Hd.
    + rewrite Hcs in H. simpl in H.
      apply IH with (cs0 := <[alg := d]> cs0) in H; [|reflexivity].
      destruct H as (-> & Hsame & Hret). split; [reflexivity|].
      split; [exact Hsame|].
      intros Hr. destruct (Hret Hr) as (cs & Hc & Hin & Hout).
      exists cs. split; [exact Hc|].
      split.
      * intros alg' Ha. destruct (decide (alg' ∈ l)) as [Hl|Hl]; [auto|].
        apply elem_of_cons in Ha as [->|Ha]; [|contradiction].
        exists d. rewrite (Hout _ Hl), lookup_insert_eq. auto.
      * intros alg' Ha. apply not_elem_of_cons in Ha as [Hne Hl].
        rewrite (Hout _ Hl). apply lookup_insert_ne. congruence.
    + injection H as <- <- <-. unfold same_but_checksums.
      repeat split; auto. discriminate.
Qed.
Lemma filepath_eq o fs :
  filepath (o, fs)
  = (match __ondisk o with
     | None => Raise AttributeError
     | Some None => Return (__filepath o)
     | Some (Some p) => Return p
     end, (o, fs)).
Proof.
  unfold filepath, self. unfold_m. simpl.
  destruct (__ondisk o) as [[p|]|]; reflexivity.
Qed.

Lemma persist_skip o fs :
  is_not_None (fileobj o) && negb inmemory = false ->
  persist inmemory (o, fs) = (Return tt, (set_ondisk None o, fs)).
Proof.
  intros H. unfold persist, update, self. unfold_m. simpl. rewrite H.
  reflexivity.
Qed.

Lemma persist_returns o fs o' fs' :
  is_not_None (fileobj o) && negb inmemory = true ->
  persist inmemory (o, fs) = (Return tt, (o', fs')) ->
  exists temp_dir fs1 content pos,
    Os.mkdtemp "jsnoop.file.persist." fs = (Return temp_dir, fs1)
    /\ fileobj o = PyFile content pos
    /\ __ondisk o' = Some (Some (join temp_dir (__filepath o)))
    /\ fileobj o' = PyFile content 0
    /\ Os.read_file fs' (join temp_dir (__filepath o)) = Some content
    /\ same_identity o o' /\ checksums o' = checksums o.
Proof.
  intros Hc H. unfold persist, update, self, on_fs, of_outcome, filepath in H.
  unfold_m. simpl in H. rewrite Hc in H.
  repeat case_match; simplify_eq. simpl in *.
  destruct (fileobj o) as [|bs|content pos] eqn:Hf; simplify_eq.
  simpl in *. simplify_eq. simpl in *. simplify_eq.
  exists a, f1, content, pos. repeat split; auto.
  - cbn in H10. congruence.
  - unfold Os.read_file. cbn. rewrite lookup_insert_eq.
    unfold Os.open_wb in *. repeat case_match; simplify_eq.
    cbn. rewrite lookup_insert_eq. reflexivity.
Qed.

(** Whatever [persist] does, the attributes [__init__] assigned and the
    checksums stay. *)
Lemma persist_identity o fs r o' fs' :
  persist inmemory (o, fs) = (r, (o', fs')) ->
  same_identity o o' /\ checksums o' = checksums o.
Proof.
  intros H. unfold persist, update, self, on_fs, of_outcome, filepath in H.
  unfold_m. simpl in H.
  repeat case_match; simplify_eq; simpl; unfold same_identity; auto 10.
Qed.
Lemma choose_fileinput_eq o fs :
  choose_fileinput (o, fs)
  = (if negb (truthy (fileobj o)) then
       match __ondisk o with
       | None => Raise AttributeError
       | Some od =>
           let fp := default (__filepath o) od in
           if Os.exists_ fs fp && Os.isfile fs fp
           then Return (InPath fp)
           else Raise AssertionError
       end
     else Return (InObj (fileobj o)), (o, fs)).
Proof.
  unfold choose_fileinput, self, filepath. unfold_m. simpl.
  destruct (truthy (fileobj o)); simpl; [reflexivity|].
  destruct (__ondisk o) as [[p|]|]; simpl; try reflexivity.
  - destruct (Os.exists_ fs p && Os.isfile fs p); reflexivity.
  - destruct (Os.exists_ fs (__filepath o) && Os.isfile fs (__filepath o));
      reflexivity.
Qed.

Lemma prepare_checksums_eq o fs :
  prepare_checksums hexdigest (o, fs)
  = match (choose_fileinput (o, fs)).1 with
    | Return fileinput =>
        for_each required_checksums (checksum_step hexdigest fileinput)
          (set_checksums ∅ o, fs)
    | Raise e => (Raise e, (o, fs))
    end.
Proof.
  unfold prepare_checksums. unfold_m. rewrite choose_fileinput_eq. simpl.
  destruct (if negb (truthy (fileobj o)) then _ else _); reflexivity.
Qed.

(** When [prepare_checksums] returns, the digests of exactly the
    required algorithms are in place, each as the provider answered it
    for the chosen input; nothing else changed. *)
Lemma prepare_checksums_returns o fs o' fs' :
  prepare_checksums hexdigest (o, fs) = (Return tt, (o', fs')) ->
  exists fileinput cs,
    (choose_fileinput (o, fs)).1 = Return fileinput
    /\ fs' = fs /\ same_but_checksums o o'
    /\ checksums o' = Some cs
    /\ (forall alg, alg ∈ required_checksums ->
          exists d, cs !! alg = Some d
                    /\ hexdigest fileinput alg fs = Return d)
    /\ (forall alg, alg ∉ required_checksums -> cs !! alg = None).
Proof.
  rewrite prepare_checksums_eq.
  destruct ((choose_fileinput (o, fs)).1) as [fileinput|e]; [|discriminate].
  intros H.
  apply checksum_loop with (cs0 := ∅) in H; [|reflexivity].
  destruct H as (-> & Hsame & Hret).
  destruct (Hret eq_refl) as (cs & Hc & Hin & Hout).
  exists fileinput, cs. repeat split; auto; try apply Hsame.
Qed.

Lemma new_returns a fs o fs' :
  new inmemory hexdigest a fs = (Return o, fs') ->
  exists o1 fs1,
    persist inmemory (init_attrs a, fs) = (Return tt, (o1, fs1))
    /\ prepare_checksums hexdigest (o1, fs1) = (Return tt, (o, fs')).
Proof.
  unfold new, __init__. unfold_m. intros H.
  destruct (persist inmemory (init_attrs a, fs)) as [[[]|e] [o1 fs1]];
    [|discriminate].
  exists o1, fs1. split; [reflexivity|].
  destruct (prepare_checksums hexdigest (o1, fs1)) as [[[]|e] [o2 fs2]];
    congruence.
Qed.

(** The attributes [__init__] assigns are those of [init_attrs] on every
    instance handed out. *)
Lemma new_identity a fs o fs' :
  new inmemory hexdigest a fs = (Return o, fs') ->
  same_identity (init_attrs a) o.
Proof.
  intros H. apply new_returns in H as (o1 & fs1 & Hp & Hc).
  apply persist_identity in Hp as [Hid _].
  apply prepare_checksums_returns in Hc
    as (fi & cs & _ & _ & Hsame & _).
  unfold same_identity, same_but_checksums in *.
  intuition congruence.
Qed.
End Methods.
End AbstractFileFacts.

Section ArtifactEntity.
Import PyStr PosixPath AbstractFile AbstractFileFacts Props.
Variable inmemory : bool.
Variable hexdigest : FileInput -> string -> FS -> Outcome string.

(** C5. Every instance the constructor hands out carries a checksum for
    exactly the four required algorithms, and each is a non-empty hex
    string, the checksum provider answering such strings. An instance whose
    digests are not all computed is not handed out: the constructor
    raises instead. *)
Theorem checksums_complete a fs o fs' :
  (forall i alg fs0 d, hexdigest i alg fs0 = Return d -> is_hex d = true) ->
  new inmemory hexdigest a fs = (Return o, fs') ->
  exists cs,
    checksums o = Some cs
    /\ dom cs = list_to_set required_checksums
    /\ size cs = 4
    /\ (forall alg, alg ∈ required_checksums ->
          exists d, cs !! alg = Some d /\ is_hex d = true).
Proof.
  intros Hhex H. apply new_returns in H as (o1 & fs1 & _ & Hc).
  apply prepare_checksums_returns in Hc
    as (fi & cs & _ & _ & _ & Hcs & Hin & Hout).
  assert (Hdom : dom cs = list_to_set required_checksums).
  { apply set_eq. intros alg. rewrite elem_of_dom, elem_of_list_to_set.
    split.
    - intros [d Hd]. destruct (decide (alg ∈ required_checksums)); [auto|].
      rewrite Hout in Hd by auto. discriminate.
    - intros Ha. destruct (Hin _ Ha) as (d & -> & _). eauto. }
  exists cs. repeat split; auto.
  - rewrite <- size_dom, Hdom. reflexivity.
  - intros alg Ha. destruct (Hin _ Ha) as (d & Hd & Hh). eauto.
Qed.

End ArtifactEntity.

Module PyStrFacts.
Import PyStr.

Lemma startswith_app (p r : string) : startswith p (p ++ r) = true.
Proof.
  unfold startswith. induction p as [|c p IH]; simpl.
  - destruct r; reflexivity.
  - destruct (ascii_dec c c); [exact IH|contradiction].
Qed.

(** Dropping the rest of a match. *)
Lemma remove_scan_skip old (m r : string) :
  remove_scan old (String.length m) (m ++ r) = remove_scan old 0 r.
Proof. induction m as [|c m IH]; simpl; [destruct r|]; auto. Qed.

(** Nothing is removed from a string in which [old] does not occur. *)
Lemma remove_scan_absent old (s : string) :
  occurs old s = false -> remove_scan old 0 s = s.
Proof.
  induction s as [|c s IH]; simpl; [reflexivity|].
  intros H. apply orb_false_iff in H as [H1 H2].
  unfold startswith in *. simpl in H1. rewrite H1, IH; auto.
Qed.

(** [(old + rest).replace(old, '')] is [rest] when [old] is empty or does
    not occur in [rest]. *)
Lemma replace_by_empty_prefix (old rest : string) :
  is_empty old = true \/ occurs old rest = false ->
  replace_by_empty old (old ++ rest) = rest.
Proof.
  destruct old as [|c old]; [reflexivity|].
  intros [H|H]; [discriminate|].
  unfold replace_by_empty.
  change (String c old ++ rest) with (String c (old ++ rest)).
  cbn [remove_scan].
  change (String c (old ++ rest)) with (String c old ++ rest).
  rewrite startswith_app.
  replace (String.length (String c old) - 1) with (String.length old)
    by (simpl; lia).
  rewrite remove_scan_skip. apply remove_scan_absent, H.
Qed.
End PyStrFacts.

Section ReportedPath.
Import PyStr PosixPath AbstractFile AbstractFileFacts Props.

(** What [__init__] computes for the reported path and the name, on every
    instance handed out: the parent path is deleted from the file path
    wherever it occurs, which gives the path behind the parent prefix only
    when the file path starts with the parent path and the parent path is
    empty or does not occur in the remainder. The name is the base name of
    the file path. Both are functions of the arguments alone: another
    class, checksum provider or file system gives the same. *)
Lemma reported_path_and_name inmemory hexdigest a fs o fs' :
  new inmemory hexdigest a fs = (Return o, fs') ->
  path o = dirname (lstrip sep
             (replace_by_empty (arg_parent_path a) (arg_filepath a)))
  /\ name o = basename (arg_filepath a)
  /\ (forall rest,
        arg_filepath a = arg_parent_path a ++ rest ->
        is_empty (arg_parent_path a) = true
        \/ occurs (arg_parent_path a) rest = false ->
        path o = dirname (lstrip sep rest))
  /\ (forall inmemory2 hexdigest2 fs2 o2 fs2',
        new inmemory2 hexdigest2 a fs2 = (Return o2, fs2') ->
        path o2 = path o /\ name o2 = name o).
Proof.
  intros H. apply new_identity in H as (_ & Hp & Hn & _).
  simpl in Hp, Hn. repeat split; auto.
  - intros rest Hr Hocc. rewrite Hp, Hr.
    rewrite PyStrFacts.replace_by_empty_prefix; auto.
  - apply new_identity in H as (_ & Hp2 & _). simpl in Hp2. congruence.
  - apply new_identity in H as (_ & _ & Hn2 & _). simpl in Hn2. congruence.
Qed.

End ReportedPath.

Module OsFacts.
Import PyStr PosixPath Os.

Lemma rfind1_le c (s : string) : rfind1 c s <= String.length s.
Proof.
  induction s as [|a s IH]; simpl; [lia|].
  destruct (rfind1 c s); [destruct (eqc a c)|]; lia.
Qed.

Lemma take_length i (s : string) : String.length (take i s) <= i.
Proof.
  revert i. induction s as [|a s IH]; intros [|i]; simpl; try lia.
  specialize (IH i). lia.
Qed.

Lemma drop_length i (s : string) :
  String.length (drop i s) = String.length s - i.
Proof.
  revert i. induction s as [|a s IH]; intros [|i]; simpl; auto.
Qed.

Lemma rstrip_length c (s : string) :
  String.length (rstrip c s) <= String.length s.
Proof.
  induction s as [|a s IH]; simpl; [lia|].
  destruct (rstrip c s); [destruct (eqc a c)|]; simpl in *; lia.
Qed.

(** Head and tail of a path share its characters. *)
Lemma dirname_basename_length (p : string) :
  String.length (dirname p) + String.length (basename p) <= String.length p.
Proof.
  unfold dirname, basename. rewrite drop_length.
  pose proof (rfind1_le sep p). pose proof (take_length (rfind1 sep p) p).
  pose proof (rstrip_length sep (take (rfind1 sep p) p)).
  destruct (negb _ && negb _); lia.
Qed.

Lemma is_empty_length (s : string) :
  is_empty s = false -> 0 < String.length s.
Proof. destruct s; simpl; [discriminate|lia]. Qed.

Lemma mkdir_no_RecursionError p fs : (mkdir p fs).1 <> Raise RecursionError.
Proof. unfold mkdir. repeat case_match; simpl; discriminate. Qed.

(** The fuel of [makedirs] never runs out. *)
Lemma makedirs_fuel fuel : forall name fs,
  String.length name <= fuel ->
  (makedirs_rec fuel name fs).1 <> Raise RecursionError.
Proof.
  induction fuel as [|fuel IH]; intros name fs Hlen.
  - destruct name; [|simpl in Hlen; lia]. vm_compute. discriminate.
  - simpl.
    pose proof (dirname_basename_length name) as H1.
    pose proof (dirname_basename_length (dirname name)) as H2.
    destruct (is_empty (basename name)) eqn:Et.
    + destruct (negb (is_empty (dirname (dirname name)))
                && negb (is_empty (basename (dirname name)))
                && negb (exists_ fs (dirname (dirname name)))) eqn:Ec;
        [|apply mkdir_no_RecursionError].
      apply andb_prop in Ec as [Ec _]. apply andb_prop in Ec as [_ Ec].
      apply negb_true_iff, is_empty_length in Ec.
      specialize (IH (dirname (dirname name)) fs ltac:(lia)).
      destruct (makedirs_rec fuel (dirname (dirname name)) fs) as [[[]|e] fs'];
        simpl in *.
      * destruct (bool_decide _); [discriminate|apply mkdir_no_RecursionError].
      * destruct e; try exact IH;
          destruct (bool_decide _);
            first [discriminate|apply mkdir_no_RecursionError].
    + destruct (negb (is_empty (dirname name))
                && negb (is_empty (basename name))
                && negb (exists_ fs (dirname name))) eqn:Ec;
        [|apply mkdir_no_RecursionError].
      apply is_empty_length in Et.
      specialize (IH (dirname name) fs ltac:(lia)).
      destruct (makedirs_rec fuel (dirname name) fs) as [[[]|e] fs'];
        simpl in *.
      * destruct (bool_decide _); [discriminate|apply mkdir_no_RecursionError].
      * destruct e; try exact IH;
          destruct (bool_decide _);
            first [discriminate|apply mkdir_no_RecursionError].
Qed.

Lemma makedirs_no_RecursionError name fs :
  (makedirs name fs).1 <> Raise RecursionError.
Proof. apply makedirs_fuel. reflexivity. Qed.

(** The directory [mkdtemp] answers did not exist before and exists
    afterwards; no file is touched. *)
Lemma mkdtemp_loop_fresh prefix names : forall fs d fs',
  mkdtemp_loop names prefix fs = (Return d, fs') ->
  exists_ fs d = false /\ isdir fs' d = true
  /\ fs_files fs' = fs_files fs /\ fs_tmpdir fs' = fs_tmpdir fs.
Proof.
  induction names as [|n rest IH]; intros fs d fs' H; simpl in H;
    [discriminate|].
  destruct (mkdir (join (fs_tmpdir fs) (prefix ++ n)) (set_names rest fs))
    as [[[]|e] fs1] eqn:E.
  - injection H as <- <-. unfold mkdir in E.
    repeat case_match; simplify_eq.
    split; [assumption|]. split; [|auto].
    unfold isdir. simpl. apply bool_decide_eq_true.
    apply elem_of_union_l, elem_of_singleton. reflexivity.
  - assert (Hfs : fs1 = set_names rest fs).
    { unfold mkdir in E. repeat case_match; simplify_eq; reflexivity. }
    subst fs1. destruct e; try discriminate.
    apply IH in H. exact H.
Qed.

Lemma mkdtemp_fresh prefix fs d fs' :
  mkdtemp prefix fs = (Return d, fs') ->
  exists_ fs d = false /\ isdir fs' d = true /\ fs_files fs' = fs_files fs.
Proof.
  intros H. apply mkdtemp_loop_fresh in H. tauto.
Qed.

(** [rmtree] leaves alone whatever does not lie under its argument. *)
Lemma rmtree_frame p fs r fs' q :
  rmtree p fs = (r, fs') ->
  under (norm p) q = false ->
  read_file fs' q = read_file fs q /\ (q ∈ fs_dirs fs' <-> q ∈ fs_dirs fs).
Proof.
  unfold rmtree, read_file. intros H Hq.
  destruct (isdir fs p); [|destruct (isfile fs p); injection H as <- <-; tauto].
  injection H as <- <-. simpl. split.
  - destruct (fs_files fs !! q) as [c|] eqn:E.
    + apply map_lookup_filter_Some_2; auto.
    + apply map_lookup_filter_None_2. auto.
  - rewrite elem_of_filter. tauto.
Qed.

(** After a successful [rmtree] nothing is left under its argument. *)
Lemma rmtree_removes p fs fs' q :
  rmtree p fs = (Return tt, fs') ->
  under (norm p) q = true ->
  read_file fs' q = None /\ q ∉ fs_dirs fs'.
Proof.
  unfold rmtree, read_file. intros H Hq.
  destruct (isdir fs p); [|destruct (isfile fs p); discriminate].
  injection H as <-. simpl. split.
  - apply map_lookup_filter_None_2. right. intros c _. simpl. congruence.
  - rewrite elem_of_filter. intros [Hc _]. congruence.
Qed.
End OsFacts.

Section Release.
Import PyStr PosixPath AbstractFile AbstractFileFacts Props.

(** [__del__] by cases: a non-empty transient path has [rmtree] run on
    it with the logical path deleted from it; every failure is swallowed. *)
Lemma del_eq o fs :
  __del__ (o, fs)
  = (Return tt,
     (o, match __ondisk o with
         | Some (Some p) =>
             if negb (is_empty p)
             then (Os.rmtree (replace_by_empty (__filepath o) p) fs).2
             else fs
         | _ => fs
         end)).
Proof.
  unfold __del__, self, on_fs. unfold_m. simpl.
  destruct (__ondisk o) as [[p|]|]; simpl; try reflexivity.
  destruct (is_empty p); simpl; [reflexivity|].
  destruct (Os.rmtree _ fs) as [[[]|e] fs1]; reflexivity.
Qed.

(** No exception leaves [__del__]. *)
Lemma del_never_raises o fs : (__del__ (o, fs)).1 = Return tt.
Proof. rewrite del_eq. reflexivity. Qed.

(** Without a transient path [__del__] touches nothing. *)
Lemma del_not_materialized o fs :
  __ondisk o = Some None \/ __ondisk o = None ->
  __del__ (o, fs) = (Return tt, (o, fs)).
Proof. intros [H|H]; rewrite del_eq, H; reflexivity. Qed.

(** Whatever the outcome of the removal, the file system changes only
    under the directory [__del__] computed. *)
Lemma del_frame o fs p q :
  __ondisk o = Some (Some p) ->
  Os.under (Os.norm (replace_by_empty (__filepath o) p)) q = false ->
  let fs' := (__del__ (o, fs)).2.2 in
  Os.read_file fs' q = Os.read_file fs q
  /\ (q ∈ fs_dirs fs' <-> q ∈ fs_dirs fs).
Proof.
  intros Hp Hq. rewrite del_eq, Hp. simpl.
  destruct (is_empty p); simpl; [tauto|].
  destruct (Os.rmtree (replace_by_empty (__filepath o) p) fs) as [r fs1] eqn:E.
  exact (OsFacts.rmtree_frame _ _ _ _ _ E Hq).
Qed.

(** When the directory [__del__] computes is there, it goes with
    everything below it. *)
Lemma del_removes o fs p q :
  __ondisk o = Some (Some p) ->
  is_empty p = false ->
  Os.isdir fs (replace_by_empty (__filepath o) p) = true ->
  Os.under (Os.norm (replace_by_empty (__filepath o) p)) q = true ->
  let fs' := (__del__ (o, fs)).2.2 in
  Os.read_file fs' q = None /\ q ∉ fs_dirs fs'.
Proof.
  intros Hp Hne Hd Hq. rewrite del_eq, Hp, Hne. simpl.
  destruct (Os.rmtree (replace_by_empty (__filepath o) p) fs) as [r fs1] eqn:E.
  assert (r = Return tt) as ->.
  { unfold Os.rmtree in E. rewrite Hd in E. congruence. }
  exact (OsFacts.rmtree_removes _ _ _ _ E Hq).
Qed.

(** When [persist] materializes a byte source and returns, the source's
    bytes are in a file below a directory that did not exist before; the
    effective path is that file, the reported path and name are as
    [__init__] assigned them. *)
Lemma persist_materializes inmemory o fs o' fs' :
  is_not_None (fileobj o) && negb inmemory = true ->
  persist inmemory (o, fs) = (Return tt, (o', fs')) ->
  exists temp_dir content pos,
    Os.exists_ fs temp_dir = false
    /\ fileobj o = PyFile content pos
    /\ (filepath (o', fs')).1 = Return (join temp_dir (__filepath o))
    /\ Os.read_file fs' (join temp_dir (__filepath o)) = Some content
    /\ path o' = path o /\ name o' = name o.
Proof.
  intros Hc H.
  destruct (persist_returns inmemory o fs o' fs' Hc H)
    as (td & fs1 & content & pos & Hm & Hf & Hod & _ & Hr & Hid & _).
  apply OsFacts.mkdtemp_fresh in Hm as (Hfresh & _).
  exists td, content, pos. rewrite filepath_eq, Hod.
  destruct Hid as (_ & Hp & Hn & _). auto 10.
Qed.

(** C6 (the code at the failing input). For the file path "foo.jar",
    which has no directory part, with a byte source and a class that needs
    on-disk backing: the directory [makedirs] is asked to create is the
    transient directory [mkdtemp] has just created, so [persist] raises
    [FileExistsError]; nothing is written, no transient path is recorded
    and the empty transient directory stays. *)
Theorem persist_fails_without_directory_part :
  let a := mkArgs "foo.jar" (PyFile (Demo.b "PKxx") 0) "" None in
  let r := persist false (init_attrs a, Demo.fs0) in
  dirname (join "/tmp/jsnoop.file.persist.k3x_9qpa" "foo.jar")
  = "/tmp/jsnoop.file.persist.k3x_9qpa"
  /\ r.1 = Raise FileExistsError
  /\ __ondisk r.2.1 = Some None
  /\ Os.read_file r.2.2 "/tmp/jsnoop.file.persist.k3x_9qpa/foo.jar" = None
  /\ Os.isdir r.2.2 "/tmp/jsnoop.file.persist.k3x_9qpa" = true
  /\ (new false Demo.hexdigest a Demo.fs0).1 = Raise FileExistsError.
Proof. repeat split; vm_compute; reflexivity. Qed.

(** C8 (the code at the failing input). For the file path "tmp/j" and the
    temporary directory "/tmp", the instance is constructed and
    materialized; [__del__] deletes the logical path from the transient
    path at its first occurrence, inside "/tmp/jsnoop...", asks [rmtree]
    for a directory that does not exist, swallows the failure, and the
    transient directory with the file in it stays. *)
Theorem del_leaves_the_transient_directory :
  let a := mkArgs "tmp/j" (PyFile (Demo.b "PKxx") 0) "" None in
  let r := new false Demo.hexdigest a Demo.fs0 in
  let ondisk := "/tmp/jsnoop.file.persist.k3x_9qpa/tmp/j" in
  match r.1 with
  | Return o =>
      __ondisk o = Some (Some ondisk)
      /\ replace_by_empty (__filepath o) ondisk = "/snoop.file.persist.k3x_9qpa/"
      /\ (__del__ (o, r.2)).1 = Return tt
      /\ Os.isdir (__del__ (o, r.2)).2.2 "/tmp/jsnoop.file.persist.k3x_9qpa" = true
      /\ Os.read_file (__del__ (o, r.2)).2.2 ondisk = Some (Demo.b "PKxx")
  | Raise _ => False
  end.
Proof. vm_compute. repeat split. Qed.

End Release.

Module DemoFacts.
Import PyStr PosixPath Handlers Props Demo.

Lemma hexdigit_ok n : is_hexdigit (hexdigit n) = true.
Proof.
  unfold hexdigit. pose proof (Nat.mod_upper_bound n 16) as Hlt.
  destruct (n mod 16) as [|m]; [reflexivity|].
  do 15 (destruct m as [|m]; [reflexivity|]). lia.
Qed.

Lemma is_hexdigit_all_app (s t : string) :
  forallb is_hexdigit (list_ascii_of_string (s ++ t))
  = forallb is_hexdigit (list_ascii_of_string s)
    && forallb is_hexdigit (list_ascii_of_string t).
Proof.
  induction s as [|c s IH]; simpl; [reflexivity|].
  rewrite IH, andb_assoc. reflexivity.
Qed.

(** The stand-in provider answers non-empty hex strings. *)
Lemma hexdigest_is_hex i alg fs d :
  hexdigest i alg fs = Return d -> is_hex d = true.
Proof.
  unfold hexdigest. destruct (input_bytes i fs) as [c|e]; [|discriminate].
  intros H. injection H as <-. unfold is_hex.
  rewrite !is_hexdigit_all_app. unfold hex2. simpl.
  rewrite !hexdigit_ok. reflexivity.
Qed.

(** An empty class cache is consistent. *)
Lemma LOADED_ok_empty st : __LOADED st = ∅ -> LOADED_ok st.
Proof.
  intros E module k _ H. rewrite E, lookup_empty in H. discriminate.
Qed.

Lemma st0_ok : LOADED_ok st0.
Proof. apply LOADED_ok_empty. reflexivity. Qed.
End DemoFacts.

Section Scenarios.
Import PyStr PosixPath Handlers Props Demo AbstractFile.

(** C1 (counterexample). "bad.zip" is not a valid container: the archive
    constructor raises [ValueError]. Its extension classifies to the
    archive handler again, whose constructor raises [ValueError] again,
    and this is the outcome of [get_handler_obj]: no handler is
    returned. *)
Lemma fallback_does_not_return_for_bad_zip :
  (cls_new ArchiveFile bad_zip (fs st0)).1 = Raise ValueError
  /\ classify (arg_filepath bad_zip) st0 = ArchiveFile
  /\ (get_handler_obj cls_new bad_zip st0).1 = Raise ValueError
  /\ ~ fallback_returns cls_new bad_zip st0.
Proof.
  assert (E : (get_handler_obj cls_new bad_zip st0).1 = Raise ValueError)
    by (vm_compute; reflexivity).
  repeat split; try (vm_compute; reflexivity).
  intros H. destruct H as [o Ho].
  - exists ValueError. split; vm_compute; reflexivity.
  - rewrite E in Ho. discriminate.
Qed.

(** C2 (counterexample). "notes.mf" holds a recognized container, and the
    checksum provider does not know sha512: the archive constructor raises
    the [ValueError] of the provider, which is no container-format
    validation failure. The fallback is taken all the same: the manifest
    constructor is called, and what it raises is the outcome. *)
Lemma fallback_taken_without_format_failure :
  let cls := FallbackSpec.cls_new_with MoreProps.hexdigest_no_sha512 in
  let fmt := FallbackSpec.format_failure MoreProps.hexdigest_no_sha512 in
  option_map is_zip (Os.read_file fs0 "notes.mf") = Some true
  /\ fmt notes_mf (fs st0) = false
  /\ (cls ArchiveFile notes_mf (fs st0)).1 = Raise ValueError
  /\ calls (get_handler_obj cls notes_mf st0).2 = [ArchiveFile; ManifestFile]
  /\ fallback_taken notes_mf st0 (get_handler_obj cls notes_mf st0).2
  /\ ~ FallbackSpec.fallback_iff_format_failure cls fmt notes_mf st0.
Proof.
  intros cls fmt.
  assert (Ht : fallback_taken notes_mf st0 (get_handler_obj cls notes_mf st0).2)
    by (vm_compute; reflexivity).
  assert (Hf : fmt notes_mf (fs st0) = false) by (vm_compute; reflexivity).
  repeat split; try assumption; try (vm_compute; reflexivity).
  intros H. apply H in Ht. rewrite Hf in Ht. discriminate.
Qed.

(** C7 (the code at the failing input). With the parent path "a/" and the
    file path "a/a/f.txt", the path behind the parent prefix is "a/f.txt"
    and its directory part is "a". [__init__] deletes the parent path with
    [str.replace], which takes both occurrences of "a/" and leaves
    "f.txt": the reported path is empty on every instance handed out,
    whatever the class, the checksum provider and the file system, and an
    instance is handed out. The name is the base name all the same. *)
Theorem reported_path_loses_a_directory :
  strip_prefix (arg_parent_path nested) (arg_filepath nested) = "a/f.txt"
  /\ reported_path_spec (arg_parent_path nested) (arg_filepath nested) = "a"
  /\ replace_by_empty (arg_parent_path nested) (arg_filepath nested) = "f.txt"
  /\ (forall inmem provider fs o fs',
        new inmem provider nested fs = (Return o, fs') ->
        path o = ""
        /\ path o
           <> reported_path_spec (arg_parent_path nested) (arg_filepath nested)
        /\ name o = "f.txt")
  /\ (exists o fs', new true hexdigest nested fs0 = (Return o, fs')).
Proof.
  split; [vm_compute; reflexivity|].
  split; [vm_compute; reflexivity|].
  split; [vm_compute; reflexivity|].
  split.
  - intros inmem provider fs o fs' H.
    apply AbstractFileFacts.new_identity in H as (_ & Hp & Hn & _).
    rewrite Hp, Hn. split; [vm_compute; reflexivity|].
    split; [vm_compute; discriminate|vm_compute; reflexivity].
  - destruct (new true hexdigest nested fs0) as [[o|e] fs'] eqn:E.
    + eauto.
    + vm_compute in E. discriminate.
Qed.

End Scenarios.

Section Witnesses.
Import PyStr PosixPath Handlers Props Demo DemoFacts AbstractFile.

(** The fallback order on "lib/a.zzz", a plain file with an unmapped
    extension: the archive constructor rejects it and the Simple handler
    is returned. *)
Lemma get_handler_obj_fallback_order_witness :
  LOADED_ok st0
  /\ exists o,
       (get_handler_obj cls_new plain_zzz st0).1 = Return (mkHandler SimpleFile o).
Proof.
  split; [exact st0_ok|].
  destruct (get_handler_obj_fallback_order cls_new plain_zzz st0 st0_ok)
    as (_ & H & _).
  assert (E : (cls_new ArchiveFile plain_zzz (fs st0)).1 = Raise ValueError)
    by (vm_compute; reflexivity).
  rewrite (H ValueError E eq_refl).
  destruct ((cls_new (classify (arg_filepath plain_zzz) st0) plain_zzz
               (cls_new ArchiveFile plain_zzz (fs st0)).2).1)
    as [o|e] eqn:E2.
  - exists o. reflexivity.
  - exfalso. vm_compute in E2. discriminate.
Defined.

(** The fallback is taken on "bad.zip", which the archive constructor
    rejects with [ValueError]. *)
Lemma fallback_iff_ValueError_witness :
  LOADED_ok st0
  /\ fallback_taken bad_zip st0 (get_handler_obj cls_new bad_zip st0).2.
Proof.
  split; [exact st0_ok|].
  apply (proj1 (fallback_iff_ValueError cls_new bad_zip st0 st0_ok)).
  exists ValueError. split; vm_compute; reflexivity.
Defined.

(** "notes.mf" holds a container and ".mf" is ignored: the Archive handler
    is returned all the same. *)
Lemma archive_wins_over_ignore_list_witness :
  LOADED_ok st0
  /\ is_ignored_extension ".mf" (set_IGNORED [".mf"] st0) = true
  /\ exists o,
       (get_handler_obj cls_new notes_mf (set_IGNORED [".mf"] st0)).1
       = Return (mkHandler ArchiveFile o).
Proof.
  split; [exact st0_ok|]. split; [vm_compute; reflexivity|].
  destruct ((cls_new ArchiveFile notes_mf (fs st0)).1) as [o|e] eqn:E.
  - exists o.
    exact (proj1 (archive_wins_over_ignore_list cls_new notes_mf st0 o
                    st0_ok E [".mf"])).
  - exfalso. vm_compute in E. discriminate.
Defined.

(** The checksums of an instance built with the stand-in provider. *)
Lemma checksums_complete_witness :
  match (new true hexdigest nested fs0).1 with
  | Return o =>
      exists cs,
        checksums o = Some cs
        /\ dom cs = list_to_set required_checksums
        /\ size cs = 4
        /\ (forall alg, alg ∈ required_checksums ->
              exists d, cs !! alg = Some d /\ is_hex d = true)
  | Raise _ => False
  end.
Proof.
  destruct (new true hexdigest nested fs0) as [[o|e] fs'] eqn:E; simpl.
  - exact (checksums_complete true hexdigest nested fs0 o fs'
             hexdigest_is_hex E).
  - vm_compute in E. discriminate.
Defined.

(** The reported path of "lib/x/f.txt" under the parent path "lib/". *)
Lemma reported_path_and_name_witness :
  match (new true hexdigest
           (mkArgs "lib/x/f.txt" (PyFile (b "x") 0) "lib/" None) fs0).1 with
  | Return o => path o = "x" /\ name o = "f.txt"
  | Raise _ => False
  end.
Proof.
  destruct (new true hexdigest
              (mkArgs "lib/x/f.txt" (PyFile (b "x") 0) "lib/" None) fs0)
    as [[o|e] fs'] eqn:E; simpl.
  - destruct (reported_path_and_name true hexdigest _ fs0 o fs' E)
      as (Hp & Hn & _).
    split; [rewrite Hp|rewrite Hn]; reflexivity.
  - vm_compute in E. discriminate.
Defined.

End Witnesses.

Section Runs.
Import PyStr PosixPath Handlers Props Demo AbstractFile.

(** A manifest that is no container is handled by the manifest handler. *)
Example run_plain_mf :
  let r := get_handler_obj cls_new plain_mf st0 in
  option_map handler_class (match r.1 with Return h => Some h | Raise _ => None end)
  = Some ManifestFile
  /\ calls r.2 = [ArchiveFile; ManifestFile].
Proof. vm_compute. auto. Qed.

(** A container named "notes.mf" is handled as an archive. *)
Example run_notes_mf :
  let r := get_handler_obj cls_new notes_mf st0 in
  option_map handler_class (match r.1 with Return h => Some h | Raise _ => None end)
  = Some ArchiveFile
  /\ calls r.2 = [ArchiveFile].
Proof. vm_compute. auto. Qed.

(** A byte source persisted under "lib/foo.jar": the transient file holds
    the bytes, the reported path and name are the logical ones, and
    [__del__] removes the transient directory and nothing else. *)
Example run_persist_and_release :
  let a := mkArgs "lib/foo.jar" (PyFile (b "PKxx") 0) "" None in
  let r := new false hexdigest a fs0 in
  let ondisk := "/tmp/jsnoop.file.persist.k3x_9qpa/lib/foo.jar" in
  match r.1 with
  | Return o =>
      (filepath (o, r.2)).1 = Return ondisk
      /\ Os.read_file r.2 ondisk = Some (b "PKxx")
      /\ path o = "lib" /\ name o = "foo.jar"
      /\ Os.isdir (__del__ (o, r.2)).2.2 "/tmp/jsnoop.file.persist.k3x_9qpa" = false
      /\ Os.read_file (__del__ (o, r.2)).2.2 ondisk = None
      /\ Os.read_file (__del__ (o, r.2)).2.2 "bad.zip" = Some (b "not a zip")
      /\ Os.isdir (__del__ (o, r.2)).2.2 "/tmp" = true
  | Raise _ => False
  end.
Proof. vm_compute. repeat split. Qed.

End Runs.

(** * Further properties of the registry *)

Module RegistryFacts.
Import PyStr PosixPath Handlers Props HandlersFacts.

(** No extension of the table maps to the default handler. *)
Lemma MODULES_not_default :
  map_Forall (fun _ module => class_of_module module <> Some SimpleFile
                              /\ class_of_module module <> None) __MODULES.
Proof. apply (bool_decide_unpack _). vm_compute. reflexivity. Qed.

Lemma known_extension_iff extension st :
  extension ∈ get_known_extensions st <-> is_Some (__MODULES !! extension).
Proof.
  unfold get_known_extensions. rewrite list_elem_of_fmap. split.
  - intros [[k v] [-> H]]. apply elem_of_map_to_list in H. simpl. eauto.
  - intros [v H]. exists (extension, v). split; [reflexivity|].
    apply elem_of_map_to_list. exact H.
Qed.

(** What [__handler_class] does to the state: nothing on a cache hit, one
    new cache entry on a miss. *)
Lemma handler_class_step module k st :
  LOADED_ok st ->
  class_of_module module = Some k ->
  __handler_class module st
  = (Return k,
     match __LOADED st !! fqn_of module with
     | Some _ => st
     | None => set_LOADED (<[fqn_of module := k]> (__LOADED st)) st
     end).
Proof.
  intros Hok Hk.
  assert (Hin : is_Some (__CLASSES !! module)).
  { unfold class_of_module in Hk. destruct (__CLASSES !! module); eauto.
    discriminate. }
  pose proof Hk as Hk'. unfold class_of_module in Hk'.
  unfold __handler_class. unfold_m.
  change (((__MODULE_PREFIX ++ "." ++ module) ++ "."
           ++ default "None" (__CLASSES !! module))) with (fqn_of module).
  destruct (__LOADED st !! fqn_of module) as [k'|] eqn:E.
  - rewrite (Hok _ _ Hin E) in Hk. injection Hk as ->. reflexivity.
  - rewrite Hk'. reflexivity.
Qed.

(** [get_handler] is [__handler_class] on the module of the tables. *)
Lemma get_handler_eq filename st :
  get_handler filename st
  = __handler_class
      (if is_ignored_extension (lower (splitext_ext filename)) st
       then __DEFAULT_MODULE
       else default __DEFAULT_MODULE
              (__MODULES !! lower (splitext_ext filename))) st.
Proof.
  unfold get_handler, get_handler_module. unfold_m.
  destruct (is_ignored_extension (lower (splitext_ext filename)) st);
    reflexivity.
Qed.

Lemma count_list_remove ext (l : list string) x :
  ext ∈ l ->
  count_occ string_dec (list_remove ext l) x
  = count_occ string_dec l x - (if decide (x = ext) then 1 else 0).
Proof.
  induction l as [|y l IH]; intros Hin; [inversion Hin|].
  simpl. destruct (decide (y = ext)) as [->|Hne].
  - rewrite bool_decide_eq_true_2 by reflexivity.
    destruct (string_dec ext x) as [->|Hx].
    + rewrite decide_True by reflexivity. lia.
    + rewrite decide_False by congruence. lia.
  - rewrite bool_decide_eq_false_2 by exact Hne.
    apply elem_of_cons in Hin as [->|Hin]; [congruence|].
    simpl. rewrite (IH Hin).
    destruct (string_dec y x) as [->|Hx]; [|reflexivity].
    rewrite decide_False by congruence. lia.
Qed.

Lemma count_zero_not_in (l : list string) x :
  x ∉ l -> count_occ string_dec l x = 0.
Proof.
  intros H. apply count_occ_not_In. rewrite <- list_elem_of_In. exact H.
Qed.

(** The loop of [unignore_extensions]: it returns, touches the ignore list
    only, and takes one occurrence away for every mention of an extension
    that is still there. *)
Lemma unignore_loop_counts exts : forall st,
  exists l',
    for_each exts (fun ext =>
      st ← get;
      if bool_decide (ext ∈ __IGNORED_EXTENSIONS st)
      then put (set_IGNORED (list_remove ext (__IGNORED_EXTENSIONS st)) st)
      else mret tt) st = (Return tt, set_IGNORED l' st)
    /\ forall x, count_occ string_dec l' x
                 = count_occ string_dec (__IGNORED_EXTENSIONS st) x
                   - count_occ string_dec exts x.
Proof.
  induction exts as [|ext exts IH]; intros st.
  - exists (__IGNORED_EXTENSIONS st). split; [destruct st; reflexivity|].
    intros x. simpl. lia.
  - rewrite for_each_cons. unfold_m.
    destruct (decide (ext ∈ __IGNORED_EXTENSIONS st)) as [Hin|Hnin].
    + rewrite bool_decide_eq_true_2 by exact Hin.
      destruct (IH (set_IGNORED (list_remove ext (__IGNORED_EXTENSIONS st)) st))
        as (l' & -> & Hc).
      exists l'. split; [reflexivity|]. intros x. rewrite Hc. simpl.
      rewrite (count_list_remove _ _ _ Hin).
      destruct (string_dec ext x) as [->|Hx].
      * rewrite decide_True by reflexivity. lia.
      * rewrite decide_False by congruence. lia.
    + rewrite bool_decide_eq_false_2 by exact Hnin.
      destruct (IH st) as (l' & -> & Hc).
      exists l'. split; [reflexivity|]. intros x. rewrite Hc. simpl.
      destruct (string_dec ext x) as [->|Hx]; [|reflexivity].
      rewrite (count_zero_not_in _ _ Hnin). lia.
Qed.

Lemma ignored_iff_count ext st :
  is_ignored_extension ext st = true
  <-> 0 < count_occ string_dec (__IGNORED_EXTENSIONS st) (lower ext).
Proof.
  unfold is_ignored_extension. rewrite bool_decide_eq_true, list_elem_of_In.
  rewrite (count_occ_In string_dec). lia.
Qed.

End RegistryFacts.

Section RegistryExtras.
Import PyStr PosixPath Handlers Props HandlersFacts RegistryFacts.

(** X1. [get_handler] answers a handler other than the default Simple one
    exactly for the files whose lower-cased extension is one of
    [get_known_extensions()] and is not ignored; the known extensions are
    eleven, without repetition. *)
Theorem special_handler_iff_known_extension filename st :
  LOADED_ok st ->
  let extension := lower (splitext_ext filename) in
  (exists k,
     (get_handler filename st).1 = Return k
     /\ (k <> SimpleFile <->
         extension ∈ get_known_extensions st
         /\ is_ignored_extension extension st = false))
  /\ NoDup (get_known_extensions st)
  /\ List.length (get_known_extensions st) = 11.
Proof.
  intros Hok extension. split; [|split].
  - destruct (get_handler_ok filename st Hok) as (ld & -> & _).
    exists (classify filename st). split; [reflexivity|].
    unfold classify. fold extension. rewrite known_extension_iff.
    destruct (is_ignored_extension extension st); cbv iota.
    + rewrite DEFAULT_MODULE_class. split; [intros H; exfalso; apply H; reflexivity|].
      intros [_ H]. discriminate.
    + pose proof (MODULES_not_default extension) as Hm.
      destruct (__MODULES !! extension) as [m|].
      * destruct (Hm m eq_refl) as [H1 H2].
        change (default __DEFAULT_MODULE (Some m)) with m.
        destruct (class_of_module m) as [k|]; [|congruence].
        change (default SimpleFile (Some k)) with k.
        split; [eauto|]. intros _ ->. congruence.
      * change (default __DEFAULT_MODULE None) with __DEFAULT_MODULE.
        rewrite DEFAULT_MODULE_class.
        split; [intros H; exfalso; apply H; reflexivity|].
        intros [[v Hv] _]. discriminate.
  - apply (bool_decide_unpack _). vm_compute. reflexivity.
  - vm_compute. reflexivity.
Qed.

(** X2. [get_handler] never raises; it changes nothing but the class cache,
    which only grows and stays consistent; and a second call for the same
    file name answers the same class without changing the state any more. *)
Theorem get_handler_memoized filename st :
  LOADED_ok st ->
  exists k st',
    get_handler filename st = (Return k, st')
    /\ get_handler filename st' = (Return k, st')
    /\ __IGNORED_EXTENSIONS st' = __IGNORED_EXTENSIONS st
    /\ fs st' = fs st /\ calls st' = calls st
    /\ LOADED_ok st'
    /\ (forall key c, __LOADED st !! key = Some c -> __LOADED st' !! key = Some c).
Proof.
  intros Hok.
  destruct (chosen_module_class (lower (splitext_ext filename))
              (is_ignored_extension (lower (splitext_ext filename)) st))
    as [k Hk].
  destruct (get_handler_ok filename st Hok) as (ld & Hg & Hok').
  assert (E2 : forall ld0,
            get_handler filename (set_LOADED ld0 st)
            = __handler_class
                (if is_ignored_extension (lower (splitext_ext filename)) st
                 then __DEFAULT_MODULE
                 else default __DEFAULT_MODULE
                        (__MODULES !! lower (splitext_ext filename)))
                (set_LOADED ld0 st)).
  { intros ld0. rewrite get_handler_eq. reflexivity. }
  pose proof (get_handler_eq filename st) as E1.
  remember (if is_ignored_extension (lower (splitext_ext filename)) st
            then __DEFAULT_MODULE
            else default __DEFAULT_MODULE
                   (__MODULES !! lower (splitext_ext filename))) as module.
  rewrite (handler_class_step _ _ _ Hok Hk) in E1.
  exists k. eexists. split; [exact E1|].
  destruct (__LOADED st !! fqn_of module) as [k'|] eqn:El.
  - repeat split; auto.
  - assert (Hok2 : LOADED_ok (set_LOADED (<[fqn_of module:=k]> (__LOADED st)) st)).
    { rewrite E1 in Hg. injection Hg as _ Hst. rewrite Hst. exact Hok'. }
    repeat split; auto.
    + rewrite E2, (handler_class_step _ _ _ Hok2 Hk).
      cbn [__LOADED set_LOADED]. rewrite lookup_insert_eq. reflexivity.
    + intros key c Hc. cbn [__LOADED set_LOADED].
      destruct (decide (fqn_of module = key)) as [<-|Hne]; [congruence|].
      rewrite lookup_insert_ne by exact Hne. exact Hc.
Qed.

(** X3. [unignore_extensions] never raises and changes the ignore list
    only: every mention of an extension in the argument, lower-cased, takes
    one occurrence of it out of the list as long as there is one. Hence an
    extension listed twice is still ignored after it was unignored once. *)
Theorem unignore_extensions_takes_one_per_mention arg st :
  exists l',
    unignore_extensions arg st = (Return tt, set_IGNORED l' st)
    /\ (forall x,
          count_occ string_dec l' x
          = count_occ string_dec (__IGNORED_EXTENSIONS st) x
            - count_occ string_dec (map lower (arg_exts arg)) x)
    /\ (forall ext,
          arg = OneExt ext ->
          (is_ignored_extension ext (set_IGNORED l' st) = true
           <-> 2 <= count_occ string_dec (__IGNORED_EXTENSIONS st) (lower ext))).
Proof.
  destruct (unignore_loop_counts (map lower (arg_exts arg)) st)
    as (l' & E & Hc).
  exists l'. split; [exact E|]. split; [exact Hc|].
  intros ext ->. rewrite ignored_iff_count. simpl. rewrite Hc. simpl.
  destruct (string_dec (lower ext) (lower ext)); [lia|contradiction].
Qed.

(** X4. On an ignore list without repetitions, [unignore_extensions]
    leaves none of the extensions of its argument ignored, whatever their
    case, keeps every other extension as it was, keeps the list free of
    repetitions, and doing it again changes nothing. *)
Theorem unignore_extensions_on_NoDup arg st :
  NoDup (__IGNORED_EXTENSIONS st) ->
  let st' := (unignore_extensions arg st).2 in
  (forall ext, ext ∈ arg_exts arg -> is_ignored_extension ext st' = false)
  /\ (forall ext, lower ext ∉ map lower (arg_exts arg) ->
        is_ignored_extension ext st' = is_ignored_extension ext st)
  /\ NoDup (__IGNORED_EXTENSIONS st')
  /\ unignore_extensions arg st' = (Return tt, st').
Proof.
  intros Hnd st'.
  destruct (unignore_loop_counts (map lower (arg_exts arg)) st)
    as (l' & E & Hc).
  assert (Est : st' = set_IGNORED l' st).
  { unfold st', unignore_extensions. rewrite E. reflexivity. }
  apply NoDup_ListNoDup in Hnd. rewrite (NoDup_count_occ string_dec) in Hnd.
  assert (Hout : forall ext, ext ∈ arg_exts arg ->
                   is_ignored_extension ext st' = false).
  { intros ext Hin. apply not_true_iff_false. rewrite ignored_iff_count.
    rewrite Est. simpl. rewrite Hc.
    assert (0 < count_occ string_dec (map lower (arg_exts arg)) (lower ext)).
    { apply (count_occ_In string_dec). apply list_elem_of_In.
      apply list_elem_of_fmap. eauto. }
    specialize (Hnd (lower ext)). lia. }
  split; [exact Hout|]. split; [|split].
  - intros ext Hnin.
    apply eq_true_iff_eq. rewrite !ignored_iff_count. rewrite Est. simpl.
    rewrite Hc, (count_zero_not_in _ _ Hnin). lia.
  - rewrite Est. simpl. apply NoDup_ListNoDup.
    apply (NoDup_count_occ string_dec). intros x.
    rewrite Hc. specialize (Hnd x). lia.
  - apply unignore_absent_noop. apply Forall_forall. intros ext Hin.
    specialize (Hout ext Hin). unfold is_ignored_extension in Hout.
    apply bool_decide_eq_false in Hout. exact Hout.
Qed.

(** X5. [get_handler_obj] never changes the ignore list, keeps the class
    cache consistent, and calls the archive constructor first and at most
    one constructor more. *)
Theorem get_handler_obj_effects
    (cls_new : HandlerClass -> CtorArgs -> M FS AbstractFile.t) a st :
  LOADED_ok st ->
  let r := get_handler_obj cls_new a st in
  __IGNORED_EXTENSIONS r.2 = __IGNORED_EXTENSIONS st
  /\ LOADED_ok r.2
  /\ (calls r.2 = (calls st ++ [ArchiveFile])%list
      \/ calls r.2
         = (calls st ++ [ArchiveFile; classify (arg_filepath a) st])%list).
Proof.
  intros Hok r. subst r.
  destruct (get_handler_obj_cases cls_new a st Hok)
    as (ld & ld' & -> & Hok1 & Hok2).
  destruct (cls_new ArchiveFile a (fs st)) as [[o|e] fs1]; [auto|].
  destruct (is_ValueError e); [|auto].
  rewrite instantiate_eq. simpl.
  destruct (cls_new (classify (arg_filepath a) st) a fs1) as [[o|e'] fs2];
    simpl; rewrite <- app_assoc; auto.
Qed.

End RegistryExtras.

(** * Further properties of the artifact entity *)

Module EntityFacts.
Import PyStr PosixPath AbstractFile AbstractFileFacts Props MoreProps.

Section Methods.
Variable inmemory : bool.
Variable hexdigest : FileInput -> string -> FS -> Outcome string.

(** The digest loop returns when the provider answers every algorithm. *)
Lemma checksum_loop_all_return fileinput l : forall o fs,
  (forall alg, alg ∈ l -> exists d, hexdigest fileinput alg fs = Return d) ->
  exists o', for_each l (checksum_step hexdigest fileinput) (o, fs)
             = (Return tt, (o', fs)).
Proof.
  induction l as [|alg l IH]; intros o fs H; [eexists; reflexivity|].
  rewrite for_each_cons, checksum_step_eq.
  destruct (H alg) as [d ->]; [left|].
  apply IH. intros alg' Hin. apply H. right. exact Hin.
Qed.

(** The digest loop stops with the exception of the first algorithm the
    provider fails on. *)
Lemma checksum_loop_first_failure fileinput l1 alg l2 e : forall o fs,
  (forall alg', alg' ∈ l1 -> exists d, hexdigest fileinput alg' fs = Return d) ->
  hexdigest fileinput alg fs = Raise e ->
  exists o', for_each (l1 ++ alg :: l2) (checksum_step hexdigest fileinput) (o, fs)
             = (Raise e, (o', fs)).
Proof.
  induction l1 as [|a l1 IH]; intros o fs H He; simpl app.
  - rewrite for_each_cons, checksum_step_eq, He. eexists; reflexivity.
  - rewrite for_each_cons, checksum_step_eq.
    destruct (H a) as [d ->]; [left|].
    apply IH; [|exact He]. intros alg' Hin. apply H. right. exact Hin.
Qed.

(** Without materialization the constructor is [prepare_checksums] on the
    attributes of [__init__]. *)
Lemma new_without_persist a fs :
  is_not_None (arg_fileobj a) && negb inmemory = false ->
  new inmemory hexdigest a fs
  = match prepare_checksums hexdigest (set_ondisk None (init_attrs a), fs) with
    | (Return _, (o, fs')) => (Return o, fs')
    | (Raise e, (_, fs')) => (Raise e, fs')
    end.
Proof.
  intros H. unfold new, __init__. unfold_m.
  rewrite (persist_skip inmemory (init_attrs a) fs H). reflexivity.
Qed.

Lemma plain_input_eq a fs :
  (choose_fileinput (set_ondisk None (init_attrs a), fs)).1 = plain_input a fs.
Proof.
  rewrite choose_fileinput_eq. unfold plain_input. simpl.
  destruct (truthy (arg_fileobj a)); reflexivity.
Qed.

End Methods.
End EntityFacts.

Section EntityExtras.
Import PyStr PosixPath AbstractFile AbstractFileFacts Props MoreProps EntityFacts.
Variable inmemory : bool.
Variable hexdigest : FileInput -> string -> FS -> Outcome string.

(** X6. Without a byte source the path must be an existing regular file:
    otherwise the constructor raises [AssertionError] before any digest is
    asked for, and the file system is as before. *)
Theorem constructor_without_source_needs_the_file a fs :
  arg_fileobj a = PyNone ->
  Os.isfile fs (arg_filepath a) = false ->
  new inmemory hexdigest a fs = (Raise AssertionError, fs).
Proof.
  intros Hf Hfile.
  rewrite new_without_persist by (rewrite Hf; reflexivity).
  rewrite prepare_checksums_eq, plain_input_eq. unfold plain_input.
  rewrite Hf, Hfile, andb_false_r. reflexivity.
Qed.

(** X7. When nothing is materialized (an in-memory class, or no byte
    source) and the input of the digests is there, the constructor returns
    if and only if the provider answers all four required algorithms for
    that input: the byte source when it is truthy, the path otherwise. The
    instance then holds these very digests. *)
Theorem constructor_returns_iff_digests a fs fileinput :
  is_not_None (arg_fileobj a) && negb inmemory = false ->
  plain_input a fs = Return fileinput ->
  ((exists o, new inmemory hexdigest a fs = (Return o, fs))
   <-> forall alg, alg ∈ required_checksums ->
         exists d, hexdigest fileinput alg fs = Return d)
  /\ (forall o fs', new inmemory hexdigest a fs = (Return o, fs') ->
        forall alg, alg ∈ required_checksums ->
          exists cs d, checksums o = Some cs /\ cs !! alg = Some d
                       /\ hexdigest fileinput alg fs = Return d).
Proof.
  intros Hc Hin.
  assert (Hret : forall o fs', new inmemory hexdigest a fs = (Return o, fs') ->
            fs' = fs /\ exists cs, checksums o = Some cs
              /\ forall alg, alg ∈ required_checksums ->
                   exists d, cs !! alg = Some d
                             /\ hexdigest fileinput alg fs = Return d).
  { intros o fs' H. rewrite (new_without_persist _ _ _ _ Hc) in H.
    destruct (prepare_checksums hexdigest (set_ondisk None (init_attrs a), fs))
      as [[[]|e] [o1 fs1]] eqn:E; [|discriminate].
    injection H as -> ->.
    apply prepare_checksums_returns in E
      as (fi & cs & Hfi & -> & _ & Hcs & Halg & _).
    rewrite plain_input_eq, Hin in Hfi. injection Hfi as <-. eauto. }
  split; [split|].
  - intros [o H] alg Ha. destruct (Hret o fs H) as (_ & cs & _ & Hd).
    destruct (Hd alg Ha) as (d & _ & Hh). eauto.
  - intros Hall. rewrite (new_without_persist _ _ _ _ Hc).
    rewrite prepare_checksums_eq, plain_input_eq, Hin.
    destruct (checksum_loop_all_return hexdigest fileinput required_checksums
                (set_checksums ∅ (set_ondisk None (init_attrs a))) fs Hall)
      as (o' & ->).
    eauto.
  - intros o fs' H alg Ha. destruct (Hret o fs' H) as (_ & cs & Hcs & Hd).
    destruct (Hd alg Ha) as (d & H1 & H2). eauto.
Qed.

(** X8. When nothing is materialized, the constructor leaves the file
    system as it was, whether it returns or raises; an instance it returns
    has no transient path, so that its effective file path is the one it
    was given. *)
Theorem plain_construction_leaves_the_file_system a fs :
  is_not_None (arg_fileobj a) && negb inmemory = false ->
  (new inmemory hexdigest a fs).2 = fs
  /\ (forall o, (new inmemory hexdigest a fs).1 = Return o ->
        __ondisk o = Some None
        /\ (filepath (o, fs)).1 = Return (arg_filepath a)).
Proof.
  intros Hc. rewrite (new_without_persist _ _ _ _ Hc).
  destruct (prepare_checksums hexdigest (set_ondisk None (init_attrs a), fs))
    as [[[]|e] [o1 fs1]] eqn:E.
  - apply prepare_checksums_returns in E
      as (fi & cs & _ & -> & Hsame & _).
    split; [reflexivity|]. intros o Ho. injection Ho as <-.
    destruct Hsame as (Hfp & _ & _ & _ & _ & _ & Hod). simpl in Hod, Hfp.
    split; [exact Hod|]. rewrite filepath_eq, Hod, Hfp. reflexivity.
  - split; [|discriminate]. simpl.
    rewrite prepare_checksums_eq, plain_input_eq in E.
    destruct (plain_input a fs) as [fi|e'].
    + destruct (for_each required_checksums (checksum_step hexdigest fi)
                  (set_checksums ∅ (set_ondisk None (init_attrs a)), fs))
        as [r [o2 fs2]] eqn:El.
      apply checksum_loop with (cs0 := ∅) in El as (-> & _); [|reflexivity].
      congruence.
    + congruence.
Qed.

(** X9. The digests are asked for in the order md5, sha1, sha256, sha512,
    and the exception of the first one the provider fails on is the
    exception of the constructor: no instance is handed out. *)
Theorem digest_failure_propagates a fs fileinput l1 alg l2 e :
  is_not_None (arg_fileobj a) && negb inmemory = false ->
  plain_input a fs = Return fileinput ->
  required_checksums = (l1 ++ alg :: l2)%list ->
  (forall alg', alg' ∈ l1 -> exists d, hexdigest fileinput alg' fs = Return d) ->
  hexdigest fileinput alg fs = Raise e ->
  new inmemory hexdigest a fs = (Raise e, fs).
Proof.
  intros Hc Hin Hl Hbefore He.
  rewrite (new_without_persist _ _ _ _ Hc).
  rewrite prepare_checksums_eq, plain_input_eq, Hin, Hl.
  destruct (checksum_loop_first_failure hexdigest fileinput l1 alg l2 e
              (set_checksums ∅ (set_ondisk None (init_attrs a))) fs Hbefore He)
    as (o' & ->).
  reflexivity.
Qed.

End EntityExtras.

Module FrameFacts.
Import PyStr PosixPath Os MoreProps.

Lemma fs_extends_refl p fs : fs_extends p fs fs.
Proof. split; auto. Qed.

Lemma fs_extends_trans p fs1 fs2 fs3 :
  fs_extends p fs1 fs2 -> fs_extends p fs2 fs3 -> fs_extends p fs1 fs3.
Proof.
  intros [Hd1 Hf1] [Hd2 Hf2]. split; [auto|].
  intros q Hq. rewrite Hf2, Hf1; auto.
Qed.

Lemma mkdir_extends p0 p fs r fs' :
  mkdir p fs = (r, fs') -> fs_extends p0 fs fs'.
Proof.
  unfold mkdir. intros H. repeat case_match; simplify_eq;
    try apply fs_extends_refl.
  split; simpl; [|auto]. intros d Hd. apply elem_of_union_r. exact Hd.
Qed.

Lemma makedirs_rec_extends p0 fuel : forall name fs r fs',
  makedirs_rec fuel name fs = (r, fs') -> fs_extends p0 fs fs'.
Proof.
  induction fuel as [|fuel IH]; intros name fs r fs' H; simpl in H.
  - repeat case_match; simplify_eq;
      first [apply fs_extends_refl | eapply mkdir_extends; eassumption].
  - repeat case_match; simplify_eq;
      try (eapply mkdir_extends; eassumption);
      try (eapply IH; eassumption);
      try (eapply fs_extends_trans;
           [eapply IH; eassumption|eapply mkdir_extends; eassumption]).
Qed.

Lemma makedirs_extends p0 name fs r fs' :
  makedirs name fs = (r, fs') -> fs_extends p0 fs fs'.
Proof. apply makedirs_rec_extends. Qed.




Lemma open_wb_extends p fs r fs' :
  open_wb p fs = (r, fs') -> fs_extends p fs fs'.
Proof.
  unfold open_wb. intros H. repeat case_match; simplify_eq;
    try apply fs_extends_refl.
  split; simpl; [auto|]. intros q Hq. apply lookup_insert_ne. congruence.
Qed.


End FrameFacts.

Module PersistFacts.
Import PyStr PosixPath AbstractFile AbstractFileFacts Props MoreProps FrameFacts.


(** A returning, materializing [persist]: the directory [mkdtemp]
    answered is still there at the end. *)
Lemma persist_keeps_transient_dir inmemory o fs o' fs' td :
  is_not_None (fileobj o) && negb inmemory = true ->
  persist inmemory (o, fs) = (Return tt, (o', fs')) ->
  (Os.mkdtemp "jsnoop.file.persist." fs).1 = Return td ->
  Os.isdir fs' td = true.
Proof.
  intros Hc H Htd.
  assert (Hd : Os.isdir (Os.mkdtemp "jsnoop.file.persist." fs).2 td = true).
  { destruct (Os.mkdtemp "jsnoop.file.persist." fs) as [r fs1] eqn:Em.
    simpl in Htd. subst r.
    apply OsFacts.mkdtemp_fresh in Em. tauto. }
  unfold persist, update, self, on_fs, of_outcome, filepath in H.
  unfold_m. simpl in H. rewrite Hc in H. simpl in H.
  destruct (Os.mkdtemp "jsnoop.file.persist." fs) as [[td'|e] fs1] eqn:Em;
    [|discriminate].
  simpl in Htd, Hd, H. injection Htd as ->.
  destruct (Os.makedirs (dirname (join td (__filepath o))) fs1)
    as [[[]|e] fs2] eqn:Ed; [|discriminate].
  apply (makedirs_extends "") in Ed. simpl in H.
  destruct (seek0 (fileobj o)) as [f0|e]; [|discriminate]. simpl in H.
  destruct (Os.open_wb (join td (__filepath o)) fs2) as [[[]|e] fs3] eqn:Eo;
    [|discriminate].
  apply open_wb_extends in Eo. simpl in H.
  destruct (read f0) as [[data f1]|e]; [|discriminate]. simpl in H.
  destruct (seek0 f1) as [f2|e]; [|discriminate].
  simpl in H. inversion H; subst.
  unfold Os.isdir in *. apply bool_decide_eq_true in Hd.
  apply bool_decide_eq_true. simpl.
  apply Eo, Ed, Hd.
Qed.

End PersistFacts.

Module LifecycleFacts.
Import PyStr PosixPath AbstractFile AbstractFileFacts Props MoreProps
       FrameFacts PersistFacts.



(** A transient path is never empty. *)
Lemma persist_ondisk_nonempty inmemory o fs o' fs' td :
  is_not_None (fileobj o) && negb inmemory = true ->
  persist inmemory (o, fs) = (Return tt, (o', fs')) ->
  (Os.mkdtemp "jsnoop.file.persist." fs).1 = Return td ->
  is_empty (join td (__filepath o)) = false.
Proof.
  intros Hc H Htd.
  unfold persist, update, self, on_fs, of_outcome, filepath in H.
  unfold_m. simpl in H. rewrite Hc in H. simpl in H.
  destruct (Os.mkdtemp "jsnoop.file.persist." fs) as [[td'|e] fs1];
    [|discriminate].
  simpl in Htd, H. injection Htd as ->.
  destruct (Os.makedirs (dirname (join td (__filepath o))) fs1)
    as [[[]|e] fs2]; [|discriminate].
  simpl in H.
  destruct (seek0 (fileobj o)) as [f0|e]; [|discriminate]. simpl in H.
  destruct (Os.open_wb (join td (__filepath o)) fs2) as [[[]|e] fs3] eqn:Eo;
    [|discriminate].
  unfold Os.open_wb in Eo.
  destruct (is_empty (join td (__filepath o))); [discriminate|reflexivity].
Qed.

Lemma under_self d : Os.under d d = true.
Proof. unfold Os.under. rewrite bool_decide_eq_true_2; reflexivity. Qed.

End LifecycleFacts.

Module FalsySourceFacts.
Import PyStr PosixPath AbstractFile AbstractFileFacts Props MoreProps
       EntityFacts FrameFacts.

(** The digest loop asks the provider about its input only: two providers
    that agree on it give the same loop. *)
Lemma checksum_loop_ext hexdigest hexdigest2 fileinput l : forall s,
  (forall alg fs0, hexdigest2 fileinput alg fs0 = hexdigest fileinput alg fs0) ->
  for_each l (checksum_step hexdigest2 fileinput) s
  = for_each l (checksum_step hexdigest fileinput) s.
Proof.
  induction l as [|alg l IH]; intros [o fs] H; [reflexivity|].
  rewrite !for_each_cons, !checksum_step_eq, H.
  destruct (hexdigest fileinput alg fs); [apply IH, H|reflexivity].
Qed.

(** A source that is not [None] and falsy is a [bytes] value, which has
    no [seek]. *)
Lemma falsy_source_seek x :
  is_not_None x = true -> truthy x = false -> seek0 x = Raise AttributeError.
Proof. destruct x; simpl; intros; congruence. Qed.

(** [persist] of a class that needs on-disk backing, on a falsy source
    that is not [None]: the transient directory is made, and [seek] fails
    on the source. *)
Lemma persist_falsy_source o fs :
  is_not_None (fileobj o) = true ->
  truthy (fileobj o) = false ->
  exists e fs',
    (persist false (o, fs)).1 = Raise e
    /\ (persist false (o, fs)).2.2 = fs'
    /\ (forall td, (Os.mkdtemp "jsnoop.file.persist." fs).1 = Return td ->
          Os.exists_ fs td = false /\ Os.isdir fs' td = true).
Proof.
  intros Hnn Hf. pose proof (falsy_source_seek _ Hnn Hf) as Hs.
  unfold persist, update, self, on_fs, of_outcome, filepath. unfold_m.
  simpl. rewrite Hnn. simpl.
  destruct (Os.mkdtemp "jsnoop.file.persist." fs) as [[td|e] fs1] eqn:Em;
    simpl; [|exists e, fs1; repeat split; discriminate].
  apply OsFacts.mkdtemp_fresh in Em as (Hfresh & Hdir & _).
  destruct (Os.makedirs (dirname (join td (__filepath o))) fs1)
    as [[[]|e] fs2] eqn:Ed; simpl;
    apply (makedirs_extends "") in Ed as [Hd _].
  - rewrite Hs. simpl. exists AttributeError, fs2.
    split; [reflexivity|]. split; [reflexivity|].
    intros td' Htd. injection Htd as <-. split; [exact Hfresh|].
    unfold Os.isdir in *. apply bool_decide_eq_true.
    apply bool_decide_eq_true in Hdir. auto.
  - exists e, fs2.
    split; [reflexivity|]. split; [reflexivity|].
    intros td' Htd. injection Htd as <-. split; [exact Hfresh|].
    unfold Os.isdir in *. apply bool_decide_eq_true.
    apply bool_decide_eq_true in Hdir. auto.
Qed.

(** When [persist] raises, so does the constructor, whatever the
    provider. *)
Lemma new_persist_raises inmemory hexdigest a fs e :
  (persist inmemory (init_attrs a, fs)).1 = Raise e ->
  new inmemory hexdigest a fs
  = (Raise e, (persist inmemory (init_attrs a, fs)).2.2).
Proof.
  unfold new, __init__. unfold_m.
  destruct (persist inmemory (init_attrs a, fs)) as [[[]|e'] [o1 fs1]];
    simpl; congruence.
Qed.

End FalsySourceFacts.

Section FalsySource.
Import PyStr PosixPath AbstractFile AbstractFileFacts Props MoreProps
       EntityFacts FalsySourceFacts.
Variable hexdigest : FileInput -> string -> FS -> Outcome string.

(** C10. A byte source that is supplied but falsy is not what the digests
    are computed from. For an in-memory class, [prepare_checksums] asserts
    that the path is an existing regular file: if it is not, the
    constructor raises [AssertionError], the file system untouched; if it
    is, the constructor returns exactly when the provider answers the four
    algorithms for the path, the instance holds the digests the provider
    gave for the path, and the source it still carries was never handed to
    the provider: a provider that differs on byte sources only gives the
    same result. [persist], which asks whether the source is [None], does
    take the falsy source up for a class that needs on-disk backing: the
    transient directory is made, and the constructor raises before any
    digest is asked for. *)
Theorem falsy_source_reads_the_path a fs :
  is_not_None (arg_fileobj a) = true ->
  truthy (arg_fileobj a) = false ->
  let p := arg_filepath a in
  let there := Os.exists_ fs p && Os.isfile fs p in
  let r := new true hexdigest a fs in
  (there = false -> r = (Raise AssertionError, fs))
  /\ (there = true ->
        ((exists o, r = (Return o, fs))
         <-> forall alg, alg ∈ required_checksums ->
               exists d, hexdigest (InPath p) alg fs = Return d)
        /\ (forall o fs', r = (Return o, fs') ->
              fileobj o = arg_fileobj a
              /\ exists cs, checksums o = Some cs
                   /\ forall alg, alg ∈ required_checksums ->
                        exists d, cs !! alg = Some d
                                  /\ hexdigest (InPath p) alg fs = Return d))
  /\ (forall hexdigest2,
        (forall q alg fs0,
           hexdigest2 (InPath q) alg fs0 = hexdigest (InPath q) alg fs0) ->
        new true hexdigest2 a fs = r)
  /\ (exists e fs',
        (forall hexdigest2, new false hexdigest2 a fs = (Raise e, fs'))
        /\ (forall td, (Os.mkdtemp "jsnoop.file.persist." fs).1 = Return td ->
              Os.exists_ fs td = false /\ Os.isdir fs' td = true)).
Proof.
  intros Hnn Hf p there r.
  assert (Hc : is_not_None (arg_fileobj a) && negb true = false)
    by apply andb_false_r.
  assert (Hin : plain_input a fs
                = if there then Return (InPath p) else Raise AssertionError).
  { unfold plain_input. rewrite Hf. reflexivity. }
  assert (Hret : there = true -> forall o fs', r = (Return o, fs') ->
            fs' = fs /\ fileobj o = arg_fileobj a
            /\ exists cs, checksums o = Some cs
              /\ forall alg, alg ∈ required_checksums ->
                   exists d, cs !! alg = Some d
                             /\ hexdigest (InPath p) alg fs = Return d).
  { intros Ht o fs' H. subst r. rewrite (new_without_persist _ _ _ _ Hc) in H.
    destruct (prepare_checksums hexdigest (set_ondisk None (init_attrs a), fs))
      as [[[]|e] [o1 fs1]] eqn:E; [|discriminate].
    injection H as -> ->.
    apply prepare_checksums_returns in E
      as (fi & cs & Hfi & -> & Hsame & Hcs & Halg & _).
    rewrite plain_input_eq, Hin, Ht in Hfi. injection Hfi as <-.
    destruct Hsame as (_ & Hfo & _). simpl in Hfo. eauto 10. }
  repeat apply conj.
  - intros Ht. subst r. rewrite (new_without_persist _ _ _ _ Hc).
    rewrite prepare_checksums_eq, plain_input_eq, Hin, Ht. reflexivity.
  - intros Ht. split; [split|].
    + intros [o H] alg Ha.
      destruct (Hret Ht o fs H) as (_ & _ & cs & _ & Hd).
      destruct (Hd alg Ha) as (d & _ & Hh). eauto.
    + intros Hall. subst r. rewrite (new_without_persist _ _ _ _ Hc).
      rewrite prepare_checksums_eq, plain_input_eq, Hin, Ht.
      destruct (checksum_loop_all_return hexdigest (InPath p)
                  required_checksums
                  (set_checksums ∅ (set_ondisk None (init_attrs a))) fs Hall)
        as (o' & ->).
      eauto.
    + intros o fs' H. destruct (Hret Ht o fs' H) as (_ & Hfo & Hcs). auto.
  - intros hexdigest2 Hagree. subst r.
    rewrite !(new_without_persist _ _ _ _ Hc).
    rewrite !prepare_checksums_eq, !plain_input_eq, Hin.
    destruct there; [|reflexivity].
    rewrite (checksum_loop_ext hexdigest hexdigest2); [reflexivity|].
    intros alg fs0. apply Hagree.
  - destruct (persist_falsy_source (init_attrs a) fs Hnn Hf)
      as (e & fs' & He & Hfs & Htd).
    exists e, fs'. split; [|exact Htd].
    intros hexdigest2. rewrite (new_persist_raises _ _ _ _ _ He), Hfs.
    reflexivity.
Qed.

End FalsySource.

Section FalsySourceWitness.
Import PyStr PosixPath AbstractFile Props MoreProps.

(** An empty [bytes] source. With a path that does not exist, an in-memory
    class raises [AssertionError]; with the file "plain.mf", the instance
    holds the digests of the file; a class that needs on-disk backing
    raises. *)
Lemma falsy_source_reads_the_path_witness :
  is_not_None (PyBytes []) = true
  /\ truthy (PyBytes []) = false
  /\ new true Demo.hexdigest (mkArgs "nope.bin" (PyBytes []) "" None) Demo.fs0
     = (Raise AssertionError, Demo.fs0)
  /\ (exists o,
        new true Demo.hexdigest (mkArgs "plain.mf" (PyBytes []) "" None) Demo.fs0
        = (Return o, Demo.fs0))
  /\ (exists e fs',
        new false Demo.hexdigest (mkArgs "nope.bin" (PyBytes []) "" None)
          Demo.fs0
        = (Raise e, fs')).
Proof.
  split; [reflexivity|]. split; [reflexivity|].
  destruct (falsy_source_reads_the_path Demo.hexdigest
              (mkArgs "nope.bin" (PyBytes []) "" None) Demo.fs0
              eq_refl eq_refl) as (H1 & _ & _ & (e & fs' & H4 & _)).
  destruct (falsy_source_reads_the_path Demo.hexdigest
              (mkArgs "plain.mf" (PyBytes []) "" None) Demo.fs0
              eq_refl eq_refl) as (_ & H2 & _).
  split; [|split].
  - apply H1. vm_compute. reflexivity.
  - apply H2; [vm_compute; reflexivity|].
    intros alg _. eexists. unfold Demo.hexdigest.
    assert (E : Demo.input_bytes (InPath "plain.mf") Demo.fs0
                = Return (Demo.b "Manifest-Version: 1.0"))
      by (vm_compute; reflexivity).
    cbn [arg_filepath]. rewrite E. reflexivity.
  - exists e, fs'. apply H4.
Defined.

End FalsySourceWitness.

Section LifecycleExtras.
Import PyStr PosixPath AbstractFile AbstractFileFacts Props MoreProps
       FrameFacts PersistFacts LifecycleFacts.
Variable inmemory : bool.
Variable hexdigest : FileInput -> string -> FS -> Outcome string.


(** X11. An instance that materialized its byte source holds a fresh
    transient directory; when the file path occurs in the transient path
    at its end only, so that deleting it leaves the transient directory,
    [__del__] removes that directory with everything below it and leaves
    every other file and directory as it was. *)
Theorem release_removes_the_transient_directory a fs o fs' td :
  is_not_None (arg_fileobj a) && negb inmemory = true ->
  new inmemory hexdigest a fs = (Return o, fs') ->
  (Os.mkdtemp "jsnoop.file.persist." fs).1 = Return td ->
  Os.norm (replace_by_empty (arg_filepath a) (join td (arg_filepath a)))
  = Os.norm td ->
  let fs'' := (__del__ (o, fs')).2.2 in
  Os.exists_ fs td = false
  /\ Os.isdir fs' td = true
  /\ Os.isdir fs'' td = false
  /\ (forall q, Os.under (Os.norm td) q = true ->
        Os.read_file fs'' q = None /\ q ∉ fs_dirs fs'')
  /\ (forall q, Os.under (Os.norm td) q = false ->
        Os.read_file fs'' q = Os.read_file fs' q
        /\ (q ∈ fs_dirs fs'' <-> q ∈ fs_dirs fs')).
Proof.
  intros Hc H Htd Hocc fs''.
  apply new_returns in H as (o1 & fs1 & Hp & Hck).
  pose proof (persist_keeps_transient_dir inmemory (init_attrs a) fs o1 fs1 td
                Hc Hp Htd) as Hdir.
  pose proof (persist_ondisk_nonempty inmemory (init_attrs a) fs o1 fs1 td
                Hc Hp Htd) as Hne.
  destruct (persist_returns inmemory (init_attrs a) fs o1 fs1 Hc Hp)
    as (td' & fs2 & c & pos & Hm & _ & Hod & _ & _ & (Hfp1 & _) & _).
  pose proof Hm as Hfresh. apply OsFacts.mkdtemp_fresh in Hfresh as (Hfresh & _).
  rewrite Hm in Htd. simpl in Htd. injection Htd as ->.
  apply prepare_checksums_returns in Hck
    as (fi & cs & _ & -> & Hsame & _).
  destruct Hsame as (Hfp & _ & _ & _ & _ & _ & Hod').
  rewrite Hod in Hod'. rewrite Hfp1 in Hfp. simpl in Hfp, Hne, Hod', Hocc.
  assert (Hisdir : Os.isdir fs1
            (replace_by_empty (__filepath o) (join td (arg_filepath a))) = true).
  { rewrite Hfp. unfold Os.isdir in *. rewrite Hocc. exact Hdir. }
  assert (Hrm : forall q, Os.under (Os.norm td) q = true ->
            Os.read_file fs'' q = None /\ q ∉ fs_dirs fs'').
  { intros q Hq. subst fs''.
    apply (del_removes o fs1 (join td (arg_filepath a)) q Hod' Hne Hisdir).
    rewrite Hfp, Hocc. exact Hq. }
  split; [exact Hfresh|]. split; [exact Hdir|]. split; [|split].
  - unfold Os.isdir. apply bool_decide_eq_false.
    apply (Hrm (Os.norm td)). apply under_self.
  - exact Hrm.
  - intros q Hq. subst fs''.
    apply (del_frame o fs1 (join td (arg_filepath a)) q Hod').
    rewrite Hfp, Hocc. exact Hq.
Qed.

End LifecycleExtras.

Module InfoFacts.
Import PyStr PosixPath AbstractFile Info.

(** Writing the checksum entries one after the other: a key of the
    checksums ends up with its digest, any other key keeps what it had. *)
Lemma info_fold_lookup (l : list (string * string)) key :
  forall base : gmap string (option string),
  NoDup l.*1 ->
  fold_left (fun fileinfo kv => <[kv.1 := Some kv.2]> fileinfo) l base !! key
  = match (list_to_map l : gmap string string) !! key with
    | Some d => Some (Some d)
    | None => base !! key
    end.
Proof.
  induction l as [|[k v] l IH]; intros base Hnd; [reflexivity|].
  apply NoDup_cons in Hnd as [Hk Hnd]. cbn [fold_left list_to_map foldr].
  rewrite (IH _ Hnd). cbn [fst snd curry uncurry].
  destruct (decide (k = key)) as [->|Hne].
  - rewrite lookup_insert_eq.
    rewrite (not_elem_of_list_to_map_1 _ _ Hk), lookup_insert_eq.
    reflexivity.
  - rewrite !lookup_insert_ne by exact Hne. reflexivity.
Qed.

Lemma lower_char_idem c : lower_char (lower_char c) = lower_char c.
Proof.
  destruct c as [[] [] [] [] [] [] [] []]; reflexivity.
Qed.

Lemma lower_idem s : lower (lower s) = lower s.
Proof.
  induction s as [|c s IH]; simpl; [reflexivity|].
  rewrite lower_char_idem, IH. reflexivity.
Qed.

Lemma dom_fixed_info h :
  dom (fixed_info h)
  = list_to_set ["path"; "name"; "type"; "parent"; "handler"].
Proof.
  unfold fixed_info. rewrite !dom_insert_L, dom_empty_L.
  apply (bool_decide_unpack _). vm_compute. reflexivity.
Qed.

(** What [info] returns once [checksums] is there. *)
Lemma info_returns h cs :
  checksums (handler_obj h) = Some cs ->
  exists m,
    info h = Return m
    /\ forall key,
         m !! key = match cs !! key with
                    | Some d => Some (Some d)
                    | None => fixed_info h !! key
                    end.
Proof.
  intros Hcs. unfold info. rewrite Hcs. eexists. split; [reflexivity|].
  intros key. rewrite info_fold_lookup by apply NoDup_fst_map_to_list.
  rewrite list_to_map_to_list. reflexivity.
Qed.

End InfoFacts.

Section InfoExtras.
Import PyStr PosixPath AbstractFile AbstractFileFacts Props MoreProps Info
       InfoFacts.

(** X12. [info] reads every entry off the instance: a key of [checksums]
    is reported with its digest, also when it is named like one of the five
    fixed entries, which it then hides; every other key has the fixed entry,
    if any. Before [checksums] is assigned, [info] raises
    [AttributeError]. *)
Theorem info_lookup h :
  match checksums (handler_obj h) with
  | None => info h = Raise AttributeError
  | Some cs =>
      exists m,
        info h = Return m
        /\ (forall key,
              m !! key = match cs !! key with
                         | Some d => Some (Some d)
                         | None => fixed_info h !! key
                         end)
        /\ dom m = dom cs ∪ list_to_set ["path"; "name"; "type"; "parent"; "handler"]
  end.
Proof.
  destruct (checksums (handler_obj h)) as [cs|] eqn:Hcs.
  - destruct (info_returns h cs Hcs) as (m & Hm & Hl).
    exists m. split; [exact Hm|]. split; [exact Hl|].
    rewrite <- (dom_fixed_info h). apply set_eq. intros key.
    rewrite elem_of_union, !elem_of_dom, Hl.
    destruct (cs !! key) as [d|]; split; eauto.
    intros [[x Hx]|H]; [discriminate|exact H].
  - unfold info. rewrite Hcs. reflexivity.
Qed.

(** X13. For every instance the constructor hands out, [info] returns a
    record of exactly nine entries: path, name, type, parent and handler as
    [__init__] computed them from the arguments and the class, and the
    digest of each of the four required algorithms. *)
Theorem info_of_a_constructed_instance inmemory hexdigest a fs o fs' k :
  new inmemory hexdigest a fs = (Return o, fs') ->
  exists m,
    info (mkHandler k o) = Return m
    /\ dom m = list_to_set ["path"; "name"; "type"; "parent"; "handler";
                            "md5"; "sha1"; "sha256"; "sha512"]
    /\ m !! "path" = Some (Some (path o))
    /\ m !! "name" = Some (Some (basename (arg_filepath a)))
    /\ m !! "type" = Some (Some (lower (splitext_ext (arg_filepath a))))
    /\ m !! "parent" = Some (arg_parent_sha512 a)
    /\ m !! "handler" = Some (Some (class_name k))
    /\ (forall alg, alg ∈ required_checksums ->
          exists d, m !! alg = Some (Some d)
                    /\ checksums o ≫= (fun cs => cs !! alg) = Some d).
Proof.
  intros H. pose proof (new_identity _ _ _ _ _ _ H) as (_ & _ & Hn & Ht & Hpa).
  simpl in Hn, Ht, Hpa.
  apply new_returns in H as (o1 & fs1 & _ & Hc).
  apply prepare_checksums_returns in Hc
    as (fi & cs & _ & _ & _ & Hcs & Hin & Hout).
  assert (Hdom : dom cs = list_to_set required_checksums).
  { apply set_eq. intros alg. rewrite elem_of_dom, elem_of_list_to_set.
    split.
    - intros [d Hd]. destruct (decide (alg ∈ required_checksums)); [auto|].
      rewrite Hout in Hd by auto. discriminate.
    - intros Ha. destruct (Hin _ Ha) as (d & -> & _). eauto. }
  destruct (info_returns (mkHandler k o) cs Hcs) as (m & Hm & Hl).
  assert (Hd : dom m = dom cs ∪ dom (fixed_info (mkHandler k o))).
  { apply set_eq. intros key. rewrite elem_of_union, !elem_of_dom, Hl.
    destruct (cs !! key) as [d|]; split; eauto.
    intros [[x Hx]|Hx]; [discriminate|exact Hx]. }
  assert (Hfix : forall key, key ∉ required_checksums ->
            m !! key = fixed_info (mkHandler k o) !! key).
  { intros key Hk. rewrite Hl, (Hout _ Hk). reflexivity. }
  exists m. split; [exact Hm|]. split.
  { rewrite Hd, Hdom, dom_fixed_info.
    apply (bool_decide_unpack _). vm_compute. reflexivity. }
  repeat split.
  - rewrite Hfix by (apply (bool_decide_unpack _); vm_compute; reflexivity). reflexivity.
  - rewrite Hfix by (apply (bool_decide_unpack _); vm_compute; reflexivity).
    rewrite <- Hn. reflexivity.
  - rewrite Hfix by (apply (bool_decide_unpack _); vm_compute; reflexivity).
    rewrite <- Ht. reflexivity.
  - rewrite Hfix by (apply (bool_decide_unpack _); vm_compute; reflexivity).
    rewrite <- Hpa. reflexivity.
  - rewrite Hfix by (apply (bool_decide_unpack _); vm_compute; reflexivity). reflexivity.
  - intros alg Ha. destruct (Hin _ Ha) as (d & Hd1 & _).
    exists d. rewrite Hl, Hd1, Hcs. simpl. auto.
Qed.

(** X14. The type of an instance is the lower-cased extension of its file
    path, lower-casing it again changes nothing, its parent is the digest
    it was given ([None] for a root), and [get_handler] classifies by the
    type alone: a file name with that lower-cased extension gets the class
    of this file, under any ignore list. *)
Theorem type_is_the_lower_case_extension inmemory hexdigest a fs o fs' :
  new inmemory hexdigest a fs = (Return o, fs') ->
  type o = lower (splitext_ext (arg_filepath a))
  /\ lower (type o) = type o
  /\ parent o = arg_parent_sha512 a
  /\ (forall filename st,
        lower (splitext_ext filename) = type o ->
        classify filename st = classify (arg_filepath a) st).
Proof.
  intros H. apply new_identity in H as (_ & _ & _ & Ht & Hpa).
  simpl in Ht, Hpa. repeat split; auto.
  - rewrite Ht. apply lower_idem.
  - intros filename st Hf. unfold classify. rewrite Hf, Ht. reflexivity.
Qed.

End InfoExtras.

Section MoreWitnesses.
Import PyStr PosixPath Handlers Props MoreProps Demo DemoFacts AbstractFile.

(** "x.ZIP": a known extension in upper case. *)
Lemma special_handler_iff_known_extension_witness :
  LOADED_ok st0
  /\ exists k, (get_handler "x.ZIP" st0).1 = Return k /\ k <> SimpleFile.
Proof.
  split; [exact st0_ok|].
  destruct (special_handler_iff_known_extension "x.ZIP" st0 st0_ok)
    as ((k & Hk & Hiff) & _).
  exists k. split; [exact Hk|]. apply Hiff. split.
  - apply (bool_decide_unpack _). vm_compute. reflexivity.
  - vm_compute. reflexivity.
Defined.

(** Two calls of [get_handler] for "notes.mf". *)
Lemma get_handler_memoized_witness :
  LOADED_ok st0
  /\ exists k st',
       get_handler "notes.mf" st0 = (Return k, st')
       /\ get_handler "notes.mf" st' = (Return k, st').
Proof.
  split; [exact st0_ok|].
  destruct (get_handler_memoized "notes.mf" st0 st0_ok)
    as (k & st' & H1 & H2 & _).
  exists k, st'. split; assumption.
Defined.

(** Unignoring ".MF" on the list [".mf"; ".zip"]. *)
Lemma unignore_extensions_on_NoDup_witness :
  NoDup [".mf"; ".zip"]
  /\ is_ignored_extension ".MF"
       (unignore_extensions (OneExt ".MF") (set_IGNORED [".mf"; ".zip"] st0)).2
     = false.
Proof.
  assert (Hnd : NoDup [".mf"; ".zip"])
    by (apply (bool_decide_unpack _); vm_compute; reflexivity).
  split; [exact Hnd|].
  apply (proj1 (unignore_extensions_on_NoDup (OneExt ".MF")
                  (set_IGNORED [".mf"; ".zip"] st0) Hnd)).
  left.
Defined.

(** The effects of [get_handler_obj] on "bad.zip". *)
Lemma get_handler_obj_effects_witness :
  LOADED_ok st0
  /\ __IGNORED_EXTENSIONS (get_handler_obj cls_new bad_zip st0).2
     = __IGNORED_EXTENSIONS st0.
Proof.
  split; [exact st0_ok|].
  exact (proj1 (get_handler_obj_effects cls_new bad_zip st0 st0_ok)).
Defined.

(** No byte source and no file "missing.bin". *)
Lemma constructor_without_source_needs_the_file_witness :
  new true hexdigest (mkArgs "missing.bin" PyNone "" None) fs0
  = (Raise AssertionError, fs0).
Proof.
  apply (constructor_without_source_needs_the_file true hexdigest
           (mkArgs "missing.bin" PyNone "" None) fs0).
  - reflexivity.
  - vm_compute. reflexivity.
Defined.

(** An in-memory instance from a stream. *)
Lemma constructor_returns_iff_digests_witness :
  exists o, new true hexdigest nested fs0 = (Return o, fs0).
Proof.
  apply (proj1 (constructor_returns_iff_digests true hexdigest nested fs0
                  (InObj (arg_fileobj nested)) eq_refl eq_refl)).
  intros alg _. eexists. reflexivity.
Defined.

Lemma plain_construction_leaves_the_file_system_witness :
  (new true hexdigest nested fs0).2 = fs0.
Proof.
  exact (proj1 (plain_construction_leaves_the_file_system true hexdigest
                  nested fs0 eq_refl)).
Defined.

(** A provider without sha512: the constructor raises its [ValueError]. *)
Lemma digest_failure_propagates_witness :
  new true hexdigest_no_sha512 nested fs0 = (Raise ValueError, fs0).
Proof.
  apply (digest_failure_propagates true hexdigest_no_sha512 nested fs0
           (InObj (arg_fileobj nested)) ["md5"; "sha1"; "sha256"] "sha512" []).
  - reflexivity.
  - reflexivity.
  - reflexivity.
  - intros alg Ha. eexists.
    apply elem_of_cons in Ha as [->|Ha]; [reflexivity|].
    apply elem_of_cons in Ha as [->|Ha]; [reflexivity|].
    apply elem_of_cons in Ha as [->|Ha]; [reflexivity|].
    inversion Ha.
  - reflexivity.
Defined.

(** "lib/foo.jar" persisted and released. *)
Lemma release_removes_the_transient_directory_witness :
  match (new false hexdigest
           (mkArgs "lib/foo.jar" (PyFile (b "PKxx") 0) "" None) fs0) with
  | (Return o, fs') =>
      Os.isdir fs' "/tmp/jsnoop.file.persist.k3x_9qpa" = true
      /\ Os.isdir (__del__ (o, fs')).2.2 "/tmp/jsnoop.file.persist.k3x_9qpa"
         = false
  | (Raise _, _) => False
  end.
Proof.
  destruct (new false hexdigest
              (mkArgs "lib/foo.jar" (PyFile (b "PKxx") 0) "" None) fs0)
    as [[o|e] fs'] eqn:E.
  - assert (Htd : (Os.mkdtemp "jsnoop.file.persist." fs0).1
                  = Return "/tmp/jsnoop.file.persist.k3x_9qpa")
      by (vm_compute; reflexivity).
    destruct (release_removes_the_transient_directory false hexdigest
                (mkArgs "lib/foo.jar" (PyFile (b "PKxx") 0) "" None)
                fs0 o fs' "/tmp/jsnoop.file.persist.k3x_9qpa"
                eq_refl E Htd eq_refl)
      as (_ & H1 & H2 & _).
    split; assumption.
  - vm_compute in E. discriminate.
Defined.

(** The record of an instance built from a stream. *)
Lemma info_of_a_constructed_instance_witness :
  match (new true hexdigest nested fs0).1 with
  | Return o =>
      exists m, Info.info (mkHandler SimpleFile o) = Return m
                /\ m !! "handler" = Some (Some "SimpleFile")
                /\ m !! "name" = Some (Some "f.txt")
  | Raise _ => False
  end.
Proof.
  destruct (new true hexdigest nested fs0) as [[o|e] fs'] eqn:E; simpl.
  - destruct (info_of_a_constructed_instance true hexdigest nested fs0 o fs'
                SimpleFile E)
      as (m & Hm & _ & _ & Hn & _ & _ & Hh & _).
    exists m. repeat split; assumption.
  - vm_compute in E. discriminate.
Defined.

Lemma type_is_the_lower_case_extension_witness :
  match (new true hexdigest
           (mkArgs "lib/Manifest.MF" (PyFile (b "x") 0) "" None) fs0).1 with
  | Return o => type o = ".mf"
  | Raise _ => False
  end.
Proof.
  destruct (new true hexdigest
              (mkArgs "lib/Manifest.MF" (PyFile (b "x") 0) "" None) fs0)
    as [[o|e] fs'] eqn:E; simpl.
  - exact (proj1 (type_is_the_lower_case_extension true hexdigest _ fs0 o fs' E)).
  - vm_compute in E. discriminate.
Defined.


End MoreWitnesses.
